(** * Forecast aggregation of the weather dashboard (App.py, new.py, update.py)

    Shallow embedding of the pure parts of the three Streamlit scripts:
    the hourly slice (Step 5), the 5-day aggregation (Step 6), the UTC
    offset display (Step 7) and [get_aqi_category].

    Modelling choices:
    - A forecast item [item] of [forecast['list']] is a record with the
      fields the scripts read: [item["dt"]], [item["main"]["temp"]],
      [item["weather"][0]["icon"]] and [item["weather"][0]["description"]].
    - Temperatures are integers ([Z]); the code only compares them
      ([np.max], [np.min]).
    - Any exception raised by Python is [None] in the option monad.
    - [datetime.fromtimestamp(ts, timezone.utc)] raises outside the years
      1..9999; inside it yields the weekday and the hour.  The naive
      [datetime.fromtimestamp(ts)] uses the clock of the machine running
      the script; it is modelled with a fixed offset [srv] of that
      machine's local time zone (no daylight saving), and raises also when
      the local time one day earlier (CPython's fold probe) falls before
      the year 1.
    - Strings are ASCII strings; [str.title] is modelled on ASCII. *)

From Stdlib Require Import ZArith List String Ascii Bool Lia.
Import ListNotations.

Open Scope Z_scope.

(** ** Error monad: [None] is a raised exception. *)

Definition bind {A B} (m : option A) (f : A -> option B) : option B :=
  match m with Some a => f a | None => None end.

Notation "x <- m ;; k" := (bind m (fun x => k))
  (at level 61, m at next level, right associativity).

(** A Python [for] loop that appends [f item] for each item. *)
Fixpoint mapM {A B} (f : A -> option B) (l : list A) : option (list B) :=
  match l with
  | [] => Some []
  | x :: r => y <- f x ;; ys <- mapM f r ;; Some (y :: ys)
  end.

(** Python slice [l[:n]]. *)
Definition py_prefix {A} (l : list A) (n : Z) : list A :=
  let len := Z.of_nat (List.length l) in
  let stop := if n <? 0 then Z.max 0 (len + n) else Z.min n len in
  firstn (Z.to_nat stop) l.

(** [np.max] and [np.min]: raise on an empty list. *)
Definition np_max (l : list Z) : option Z :=
  match l with [] => None | x :: r => Some (fold_left Z.max r x) end.

Definition np_min (l : list Z) : option Z :=
  match l with [] => None | x :: r => Some (fold_left Z.min r x) end.

(** ** Python dicts with insertion order, as association lists *)

Fixpoint lookup {V} (k : string) (d : list (string * V)) : option V :=
  match d with
  | [] => None
  | (k', v) :: r => if String.eqb k k' then Some v else lookup k r
  end.

(** In-place update of the entry under [k] ([d[k][...] = ...]). *)
Fixpoint modify {V} (k : string) (f : V -> V) (d : list (string * V))
  : list (string * V) :=
  match d with
  | [] => []
  | (k', v) :: r =>
      if String.eqb k k' then (k', f v) :: r else (k', v) :: modify k f r
  end.

(** ** Strings *)

Definition digit (n : Z) : ascii := ascii_of_nat (48 + Z.to_nat n).

(** Decimal digits of a non-negative integer. *)
Fixpoint dec_aux (fuel : nat) (n : Z) (acc : string) : string :=
  match fuel with
  | O => String (digit n) acc
  | S f =>
      if n <? 10 then String (digit n) acc
      else dec_aux f (n / 10) (String (digit (n mod 10)) acc)
  end.

Definition dec (n : Z) : string := dec_aux (Z.to_nat (Z.log2 n)) n EmptyString.

(** Python format spec [:02d] of a non-negative integer. *)
Definition fmt02 (n : Z) : string :=
  let s := dec n in
  if (String.length s <? 2)%nat then String "0"%char s else s.

(** [s.lstrip('0')] *)
Fixpoint lstrip0 (s : string) : string :=
  match s with
  | EmptyString => EmptyString
  | String c r => if Ascii.eqb c "0"%char then lstrip0 r else s
  end.

Definition is_upper (c : ascii) : bool :=
  let n := nat_of_ascii c in (Nat.leb 65 n && Nat.leb n 90)%bool.
Definition is_lower (c : ascii) : bool :=
  let n := nat_of_ascii c in (Nat.leb 97 n && Nat.leb n 122)%bool.
Definition to_upper (c : ascii) : ascii :=
  if is_lower c then ascii_of_nat (nat_of_ascii c - 32) else c.
Definition to_lower (c : ascii) : ascii :=
  if is_upper c then ascii_of_nat (nat_of_ascii c + 32) else c.

(** [str.title]: a cased character is upper-cased after an uncased one and
    lower-cased after a cased one. *)
Fixpoint title_aux (previous_is_cased : bool) (s : string) : string :=
  match s with
  | EmptyString => EmptyString
  | String c r =>
      if is_upper c then
        String (if previous_is_cased then to_lower c else c) (title_aux true r)
      else if is_lower c then
        String (if previous_is_cased then c else to_upper c) (title_aux true r)
      else String c (title_aux false r)
  end.

Definition py_title (s : string) : string := title_aux false s.

(** ** [datetime] *)

(** Weekday (Monday = 0) and hour of a broken-down time. *)
Record tm := { tm_wday : Z; tm_hour : Z }.

(** 0001-01-01T00:00:00 and 9999-12-31T23:59:59 as POSIX timestamps. *)
Definition MIN_TS : Z := -62135596800.
Definition MAX_TS : Z := 253402300799.

Definition in_range (ts : Z) : bool := (MIN_TS <=? ts) && (ts <=? MAX_TS).

(** 1970-01-01 was a Thursday (weekday 3). *)
Definition civil (ts : Z) : tm :=
  {| tm_wday := (ts / 86400 + 3) mod 7; tm_hour := (ts mod 86400) / 3600 |}.

(** [datetime.fromtimestamp(ts, timezone.utc)] *)
Definition fromtimestamp_utc (ts : Z) : option tm :=
  if in_range ts then Some (civil ts) else None.

(** [datetime.fromtimestamp(ts)] on a machine whose local time is
    [srv] seconds ahead of UTC.  For a naive result CPython also converts
    the local time one day earlier, to detect a fold
    ([datetime_from_timet_and_us]), and raises [ValueError] when that
    probe falls before the year 1. *)
Definition fromtimestamp (srv ts : Z) : option tm :=
  t <- fromtimestamp_utc (ts + srv) ;;
  _ <- fromtimestamp_utc (ts + srv - 86400) ;;
  Some t.

(** The timestamps for which [fromtimestamp srv] does not raise. *)
Definition naive_in_range (srv ts : Z) : bool :=
  in_range (ts + srv) && in_range (ts + srv - 86400).

Definition wday_abbrev (w : Z) : string :=
  nth (Z.to_nat w) ["Mon"; "Tue"; "Wed"; "Thu"; "Fri"; "Sat"; "Sun"]%string "Sun"%string.

(** [strftime] directives [%a], [%I] and [%p]. *)
Definition strftime_a (t : tm) : string := wday_abbrev (tm_wday t).
Definition hour12 (h : Z) : Z := if h mod 12 =? 0 then 12 else h mod 12.
Definition strftime_I (t : tm) : string := fmt02 (hour12 (tm_hour t)).
Definition strftime_p (t : tm) : string :=
  if tm_hour t <? 12 then "AM"%string else "PM"%string.

(** ** Data model *)

Record ForecastItem := {
  item_dt : Z;
  item_temp : Z;
  item_icon : string;
  item_description : string
}.

(** One entry of the lists [hours], [temps], [conditions], [icons] of Step 5. *)
Record HourlyPoint := {
  hour_label : string;
  hp_temp : Z;
  condition : string;
  hp_icon : string
}.

(** One entry of the lists [days], [temps_max], [temps_min], [icons] of Step 6. *)
Record DailySummary := {
  ds_day : string;
  ds_max : Z;
  ds_min : Z;
  ds_icon : string
}.

(** ** Step 7: [offset_display] (identical in the three scripts)

    [offset_hours = tz / 3600] is a float, [int] truncates it toward zero
    (exact for offsets far below 2^40 seconds); [tz % 3600] is Python's
    floor modulo, non-negative, so [int((tz % 3600) / 60)] is a floor
    division. *)
Definition offset_display (tz_offset_seconds : Z) : string :=
  let offset_hours := Z.quot tz_offset_seconds 3600 in
  let offset_minutes := (tz_offset_seconds mod 3600) / 60 in
  let sign := if 0 <=? tz_offset_seconds then "+"%string else "-"%string in
  ("UTC" ++ sign ++ fmt02 (Z.abs offset_hours) ++ ":" ++ fmt02 (Z.abs offset_minutes))%string.

(** ** App.py *)

Module App.

(** [get_aqi_category] of App.py; [aqi_value] is an integer or absent. *)
Definition get_aqi_category (aqi_value : option Z) : string * string :=
  let aqi_map := [(1, "Good"); (2, "Fair"); (3, "Moderate"); (4, "Poor"); (5, "Very Poor")]%string in
  let aqi_color_map := [(1, "#00e400"); (2, "#ffff00"); (3, "#ff7e00"); (4, "#ff0000"); (5, "#99004c")]%string in
  let get m default :=
    match aqi_value with
    | Some v => match find (fun kv => fst kv =? v) m with Some kv => snd kv | None => default end
    | None => default
    end in
  (get aqi_map "Unknown"%string, get aqi_color_map "white"%string).

(** Step 5: one iteration of the loop over [forecast['list'][:8]]. *)
Definition hourly_point (tz_offset_seconds : Z) (item : ForecastItem) : option HourlyPoint :=
  t <- fromtimestamp_utc (item_dt item + tz_offset_seconds) ;;
  Some {| hour_label := lstrip0 (strftime_I t ++ " " ++ strftime_p t)%string;
          hp_temp := item_temp item;
          condition := py_title (item_description item);
          hp_icon := item_icon item |}.

Definition hourly (forecast_list : list ForecastItem) (tz_offset_seconds : Z)
  : option (list HourlyPoint) :=
  mapM (hourly_point tz_offset_seconds) (py_prefix forecast_list 8).

(** Step 6: the value [daily_data[day_name]]. *)
Record entry := { temps : list Z; icon : string }.

Definition step (srv : Z) (daily_data : list (string * entry)) (item : ForecastItem)
  : option (list (string * entry)) :=
  t <- fromtimestamp srv (item_dt item) ;;
  let day_name := strftime_a t in
  let d1 := match lookup day_name daily_data with
            | Some _ => daily_data
            | None => daily_data ++ [(day_name, {| temps := []; icon := item_icon item |})]
            end in
  Some (modify day_name
          (fun e => {| temps := temps e ++ [item_temp item]; icon := icon e |}) d1).

Fixpoint aggregate (srv : Z) (daily_data : list (string * entry)) (l : list ForecastItem)
  : option (list (string * entry)) :=
  match l with
  | [] => Some daily_data
  | item :: r => d <- step srv daily_data item ;; aggregate srv d r
  end.

Definition emit (p : string * entry) : option DailySummary :=
  let '(day, data) := p in
  mx <- np_max (temps data) ;;
  mn <- np_min (temps data) ;;
  Some {| ds_day := day; ds_max := mx; ds_min := mn; ds_icon := icon data |}.

Definition daily (srv : Z) (forecast_list : list ForecastItem) : option (list DailySummary) :=
  daily_data <- aggregate srv [] forecast_list ;;
  mapM emit (py_prefix daily_data 5).

End App.

(** ** new.py: the same Steps 5 and 6 as App.py, another colour table *)

Module New.

Definition get_aqi_category (aqi_value : option Z) : string * string :=
  let aqi_map := [(1, "Good"); (2, "Fair"); (3, "Moderate"); (4, "Poor"); (5, "Very Poor")]%string in
  let aqi_color_map := [(1, "#00aa00"); (2, "#aaaa00"); (3, "#cc5500"); (4, "#cc0000"); (5, "#77004c")]%string in
  let get m default :=
    match aqi_value with
    | Some v => match find (fun kv => fst kv =? v) m with Some kv => snd kv | None => default end
    | None => default
    end in
  (get aqi_map "Unknown"%string, get aqi_color_map "#333333"%string).

Definition hourly_point (tz_offset_seconds : Z) (item : ForecastItem) : option HourlyPoint :=
  t <- fromtimestamp_utc (item_dt item + tz_offset_seconds) ;;
  Some {| hour_label := lstrip0 (strftime_I t ++ " " ++ strftime_p t)%string;
          hp_temp := item_temp item;
          condition := py_title (item_description item);
          hp_icon := item_icon item |}.

Definition hourly (forecast_list : list ForecastItem) (tz_offset_seconds : Z)
  : option (list HourlyPoint) :=
  mapM (hourly_point tz_offset_seconds) (py_prefix forecast_list 8).

Definition step (srv : Z) (daily_data : list (string * App.entry)) (item : ForecastItem)
  : option (list (string * App.entry)) :=
  t <- fromtimestamp srv (item_dt item) ;;
  let day_name := strftime_a t in
  let d1 := match lookup day_name daily_data with
            | Some _ => daily_data
            | None => daily_data ++ [(day_name, {| App.temps := []; App.icon := item_icon item |})]
            end in
  Some (modify day_name
          (fun e => {| App.temps := App.temps e ++ [item_temp item]; App.icon := App.icon e |}) d1).

Fixpoint aggregate (srv : Z) (daily_data : list (string * App.entry)) (l : list ForecastItem)
  : option (list (string * App.entry)) :=
  match l with
  | [] => Some daily_data
  | item :: r => d <- step srv daily_data item ;; aggregate srv d r
  end.

Definition daily (srv : Z) (forecast_list : list ForecastItem) : option (list DailySummary) :=
  daily_data <- aggregate srv [] forecast_list ;;
  mapM App.emit (py_prefix daily_data 5).

End New.

(** ** update.py: slider window, weekday in the hourly labels, icon closest
    to noon in the daily summary *)

Module Update.

Definition get_aqi_category (aqi_value : option Z) : string * string :=
  let aqi_map := [(1, "Good"); (2, "Fair"); (3, "Moderate"); (4, "Poor"); (5, "Very Poor")]%string in
  let aqi_color_map := [(1, "#00aa00"); (2, "#aaaa00"); (3, "#cc5500"); (4, "#cc0000"); (5, "#77004c")]%string in
  let get m default :=
    match aqi_value with
    | Some v => match find (fun kv => fst kv =? v) m with Some kv => snd kv | None => default end
    | None => default
    end in
  (get aqi_map "Unknown"%string, get aqi_color_map "#333333"%string).

(** [strftime("%a %I %p").lstrip('0')] *)
Definition hour_label_of (t : tm) : string :=
  lstrip0 (strftime_a t ++ " " ++ strftime_I t ++ " " ++ strftime_p t)%string.

Definition hourly_point (tz_offset_seconds : Z) (item : ForecastItem) : option HourlyPoint :=
  t <- fromtimestamp_utc (item_dt item + tz_offset_seconds) ;;
  Some {| hour_label := hour_label_of t;
          hp_temp := item_temp item;
          condition := py_title (item_description item);
          hp_icon := item_icon item |}.

(** [hours_to_show] is the slider value; [num_chunks = hours_to_show // 3]. *)
Definition hourly (forecast_list : list ForecastItem) (tz_offset_seconds : Z)
  (hours_to_show : Z) : option (list HourlyPoint) :=
  let num_chunks := hours_to_show / 3 in
  mapM (hourly_point tz_offset_seconds) (py_prefix forecast_list num_chunks).

Record entry := { temps : list Z; icon : string; noon_diff : Z }.

Definition step (srv : Z) (daily_data : list (string * entry)) (item : ForecastItem)
  : option (list (string * entry)) :=
  t <- fromtimestamp srv (item_dt item) ;;
  let day_name := strftime_a t in
  t2 <- fromtimestamp srv (item_dt item) ;;
  let hour := tm_hour t2 in
  let d1 := match lookup day_name daily_data with
            | Some _ => daily_data
            | None => daily_data ++
                        [(day_name, {| temps := []; icon := item_icon item; noon_diff := 24 |})]
            end in
  let d2 := modify day_name
              (fun e => {| temps := temps e ++ [item_temp item]; icon := icon e;
                           noon_diff := noon_diff e |}) d1 in
  let current_noon_diff := Z.abs (12 - hour) in
  Some (modify day_name
          (fun e => if current_noon_diff <? noon_diff e
                    then {| temps := temps e; icon := item_icon item;
                            noon_diff := current_noon_diff |}
                    else e) d2).

Fixpoint aggregate (srv : Z) (daily_data : list (string * entry)) (l : list ForecastItem)
  : option (list (string * entry)) :=
  match l with
  | [] => Some daily_data
  | item :: r => d <- step srv daily_data item ;; aggregate srv d r
  end.

Definition emit (p : string * entry) : option DailySummary :=
  let '(day, data) := p in
  mx <- np_max (temps data) ;;
  mn <- np_min (temps data) ;;
  Some {| ds_day := day; ds_max := mx; ds_min := mn; ds_icon := icon data |}.

Definition daily (srv : Z) (forecast_list : list ForecastItem) : option (list DailySummary) :=
  daily_data <- aggregate srv [] forecast_list ;;
  mapM emit (py_prefix daily_data 5).

End Update.

(** ** Views used to state the claims *)

(** Day key and distance to noon of an item, on the machine's clock. *)
Definition day_key (srv : Z) (item : ForecastItem) : string :=
  strftime_a (civil (item_dt item + srv)).
Definition noon_dist (srv : Z) (item : ForecastItem) : Z :=
  Z.abs (12 - tm_hour (civil (item_dt item + srv))).

(** Position of the first occurrence of [k] in [l]. *)
Fixpoint first_index (k : string) (l : list string) : nat :=
  match l with
  | [] => 0
  | x :: r => if String.eqb k x then 0 else S (first_index k r)
  end.

Definition hp_core (p : HourlyPoint) : Z * string * string :=
  (hp_temp p, condition p, hp_icon p).
Definition ds_core (d : DailySummary) : string * Z * Z :=
  (ds_day d, ds_max d, ds_min d).

Definition mk (dt temp : Z) (ic : string) : ForecastItem :=
  {| item_dt := dt; item_temp := temp; item_icon := ic; item_description := "clear sky" |}.

(** Invariants of the loop of Step 6 in update.py after the items [p]:
    the entry of each day holds the icon and distance of the first item of
    that day closest to noon ... *)
Definition icon_inv (srv : Z) (p : list ForecastItem) (d : list (string * Update.entry)) : Prop :=
  forall k e, lookup k d = Some e ->
  exists pre s post, p = pre ++ s :: post /\ day_key srv s = k /\
    Update.icon e = item_icon s /\ Update.noon_diff e = noon_dist srv s /\
    (forall s', In s' pre -> day_key srv s' = k -> noon_dist srv s < noon_dist srv s') /\
    (forall s', In s' post -> day_key srv s' = k -> noon_dist srv s <= noon_dist srv s').

(** ... and the keys are the day keys of [p], without duplicates, in the
    order of their first occurrence, each with a non-empty list of
    temperatures. *)
Definition keys_inv (srv : Z) (p : list ForecastItem) (d : list (string * Update.entry)) : Prop :=
  NoDup (map fst d) /\
  (forall k, In k (map fst d) <-> exists s, In s p /\ day_key srv s = k) /\
  ForallOrdPairs (fun a b => (first_index a (map (day_key srv) p) <
                              first_index b (map (day_key srv) p))%nat) (map fst d) /\
  (forall k e, lookup k d = Some e -> Update.temps e <> []).

(** The day and temperatures of an entry of [daily_data]. *)
Definition projA_entry (p : string * App.entry) : string * list Z := (fst p, App.temps (snd p)).
Definition projU_entry (p : string * Update.entry) : string * list Z := (fst p, Update.temps (snd p)).

(** Eight items three hours apart from 1970-01-01T00:00 UTC (a Thursday). *)
Definition day8 : list ForecastItem :=
  map (fun i => mk (10800 * Z.of_nat i) (nth i [20; 19; 18; 17; 18; 21; 24; 23] 0) "01d")
      (seq 0 8).

(** Eight items at noon (UTC) on seven distinct weekdays, not in calendar
    order: Sat, Thu, Sat, Mon, Fri, Wed, Tue, Sun. *)
Definition week_mixed : list ForecastItem :=
  map (fun k => mk (86400 * k + 43200) (20 + k) "01d") [2; 0; 2; 4; 1; 6; 5; 3].

(** ** Whitespace: [str.isspace], [str.strip()], [str.split()] *)

(** Characters for which [str.isspace] holds (on code points below 256). *)
Definition is_space (c : ascii) : bool :=
  let n := nat_of_ascii c in
  (Nat.leb 9 n && Nat.leb n 13) || (Nat.leb 28 n && Nat.leb n 32) ||
  Nat.eqb n 133 || Nat.eqb n 160.

Fixpoint lstrip_ws (s : string) : string :=
  match s with
  | EmptyString => EmptyString
  | String c r => if is_space c then lstrip_ws r else s
  end.

Fixpoint rstrip_ws (s : string) : string :=
  match s with
  | EmptyString => EmptyString
  | String c r =>
      let r' := rstrip_ws r in
      match r' with
      | EmptyString => if is_space c then EmptyString else String c EmptyString
      | _ => String c r'
      end
  end.

(** [s.strip()] *)
Definition py_strip (s : string) : string := rstrip_ws (lstrip_ws s).

(** The characters of the first word of [s] (up to the next space). *)
Fixpoint take_word (s : string) : string :=
  match s with
  | EmptyString => EmptyString
  | String c r => if is_space c then EmptyString else String c (take_word r)
  end.

(** [s.split()[0]]: [IndexError] when [s] has no word. *)
Definition split_first (s : string) : option string :=
  match lstrip_ws s with
  | EmptyString => None
  | r => Some (take_word r)
  end.

(** A string that consists of whitespace only (possibly empty). *)
Fixpoint all_space (s : string) : bool :=
  match s with
  | EmptyString => true
  | String c r => is_space c && all_space r
  end.

(** ** [format_local_time] (identical in the three scripts) *)

(** [datetime.fromtimestamp(local_ts, timezone.utc).strftime("%I:%M %p")];
    the minute [%M] of that datetime is [(local_ts mod 3600) / 60] (a day
    is a whole number of hours). *)
Definition format_local_time (timestamp offset : Z) : option string :=
  let local_ts := timestamp + offset in
  t <- fromtimestamp_utc local_ts ;;
  Some (strftime_I t ++ ":" ++ fmt02 ((local_ts mod 3600) / 60) ++ " " ++ strftime_p t)%string.

(** ** Theme (new.py and update.py) *)

(** [toggle_theme], the [on_click] callback of the theme button. *)
Definition toggle_theme (theme : string) : string :=
  if String.eqb theme "light" then "dark"%string else "light"%string.

Definition plotly_template (current_theme : string) : string :=
  if String.eqb current_theme "light" then "plotly_white"%string else "plotly_dark"%string.

(** The tiles of [create_weather_map] for the theme passed to it. *)
Definition map_tiles (theme : string) : string :=
  if String.eqb theme "light" then "OpenStreetMap"%string else "CartoDB dark_matter"%string.

(** ** JSON fields read with [d[key]], [d.get(key)] and [d.get(key, default)] *)

Inductive JField (A : Type) : Type :=
| Absent
| Null
| Val (a : A).

Arguments Absent {A}.
Arguments Null {A}.
Arguments Val {A} a.

(** [d[key]]: [KeyError] (outer [None]) when the key is absent; JSON
    [null] is Python's [None] (inner [None]). *)
Definition getitem {A} (f : JField A) : option (option A) :=
  match f with Absent => None | Null => Some None | Val a => Some (Some a) end.

(** [d.get(key, default)] *)
Definition get_default {A} (f : JField A) (default : A) : option A :=
  match f with Absent => Some default | Null => None | Val a => Some a end.

(** ** [get_coordinates]

    The body of the geocoding response [requests.get(url).json()]: a JSON
    array of places, or a JSON object (an error such as
    [{"cod": 401, "message": ...}]) given by its keys.  A request that
    raises [RequestException] is [None]. *)

Section Geocoding.

Variable Coord : Type.

Record GeoEntry := {
  geo_lat : JField Coord;
  geo_lon : JField Coord;
  geo_name : JField string;
  geo_country : JField string
}.

Inductive GeoResponse :=
| GeoList (places : list GeoEntry)
| GeoObject (keys : list string).

Definition geo_result : Type :=
  (option Coord * option Coord * option string * option string)%type.

Definition no_place : geo_result := (None, None, None, None).

(** [response[0]["lat"], response[0]["lon"], response[0]["name"],
    response[0].get("country","")] *)
Definition first_place (e : GeoEntry) : option geo_result :=
  lat <- getitem (geo_lat e) ;;
  lon <- getitem (geo_lon e) ;;
  name <- getitem (geo_name e) ;;
  Some (lat, lon, name, get_default (geo_country e) ""%string).

(** App.py: catches [RequestException] and [IndexError] only; a raised
    [KeyError] is the outer [None]. *)
Definition get_coordinates_App (response : option GeoResponse) : option geo_result :=
  match response with
  | None => Some no_place
  | Some (GeoList []) => Some no_place
  | Some (GeoList (e :: _)) => first_place e
  | Some (GeoObject []) => Some no_place
  | Some (GeoObject (_ :: _)) => None
  end.

(** update.py and new.py: also checks [response[0].get("lat") is not None]
    and catches [KeyError]. *)
Definition get_coordinates_Update (response : option GeoResponse) : geo_result :=
  match response with
  | Some (GeoList (e :: _)) =>
      match geo_lat e with
      | Val _ => match first_place e with Some r => r | None => no_place end
      | _ => no_place
      end
  | _ => no_place
  end.

End Geocoding.

Arguments GeoList {Coord} places.
Arguments GeoObject {Coord} keys.
Arguments no_place {Coord}.
Arguments first_place {Coord} e.
Arguments geo_lat {Coord} g.
Arguments geo_lon {Coord} g.
Arguments geo_name {Coord} g.
Arguments geo_country {Coord} g.
Arguments Build_GeoEntry {Coord} geo_lat geo_lon geo_name geo_country.
Arguments get_coordinates_App {Coord} response.
Arguments get_coordinates_Update {Coord} response.

(** ** [get_weather_data] (identical in the three scripts)

    The three requests are given by their results: the body of the
    current-weather, forecast and air-pollution responses, [None] when
    the request raised [RequestException].  The current-weather body is
    the JSON object read through [.get('cod')] and [.get('timezone', 0)]. *)

Inductive Cod := CodInt (n : Z) | CodStr (s : string).

Record CurrentJson := { cur_cod : option Cod; cur_timezone : option Z }.

Section WeatherData.

Variables Forecast Aqi : Type.

(** The dict [data]; [timezone_offset] is absent when the current-weather
    request raised. *)
Record WeatherBundle := {
  wd_current : option CurrentJson;
  wd_timezone_offset : option Z;
  wd_forecast : option Forecast;
  wd_aqi : option Aqi
}.

(** [data['current'].get('cod') != 200] *)
Definition cod_not_200 (c : CurrentJson) : bool :=
  match cur_cod c with Some (CodInt n) => negb (n =? 200) | _ => true end.

Definition get_weather_data (current : option CurrentJson) (forecast : option Forecast)
  (aqi : option Aqi) : option WeatherBundle :=
  let data := {| wd_current := current;
                 wd_timezone_offset :=
                   match current with
                   | Some c => Some (match cur_timezone c with Some tz => tz | None => 0 end)
                   | None => None
                   end;
                 wd_forecast := forecast;
                 wd_aqi := aqi |} in
  match current, forecast with
  | Some c, Some _ => if cod_not_200 c then None else Some data
  | _, _ => None
  end.

End WeatherData.

Arguments get_weather_data {Forecast Aqi} current forecast aqi.
Arguments wd_current {Forecast Aqi} w.
Arguments wd_timezone_offset {Forecast Aqi} w.
Arguments wd_forecast {Forecast Aqi} w.
Arguments wd_aqi {Forecast Aqi} w.

(** ** [fetch_and_store_data] of update.py and the session state *)

Inductive FetchError := EmptyInput | CityNotFound | DataUnavailable.

Section Session.

Variables Coord Data : Type.

(** [get_coordinates] and [get_weather_data] as called by the script. *)
Variable get_coordinates : string -> option Coord * option Coord * option string * option string.
Variable get_weather_data : option Coord -> option Coord -> option Data.

(** [st.session_state]; [country], [lat] and [lon] are [None] until
    first set (the attribute does not exist yet). *)
Record Session := {
  ss_city_name : option string;
  ss_weather_data : option Data;
  ss_city_search_done : bool;
  ss_country : option (option string);
  ss_lat : option (option Coord);
  ss_lon : option (option Coord)
}.

(** The state set up at the top of the script. *)
Definition initial_session : Session :=
  {| ss_city_name := Some "Anantapur"%string; ss_weather_data := None;
     ss_city_search_done := false; ss_country := None; ss_lat := None; ss_lon := None |}.

Definition clear_data (s : Session) : Session :=
  {| ss_city_name := ss_city_name s; ss_weather_data := None;
     ss_city_search_done := false; ss_country := ss_country s;
     ss_lat := ss_lat s; ss_lon := ss_lon s |}.

(** The new state and the [st.error] shown, if any. *)
Definition fetch_and_store_data (city_input : string) (s : Session)
  : Session * option FetchError :=
  if String.eqb (py_strip city_input) ""%string then (s, Some EmptyInput)
  else
    match get_coordinates city_input with
    | (None, _, _, _) => (clear_data s, Some CityNotFound)
    | (Some lat, lon, city_name_found, country) =>
        match get_weather_data (Some lat) lon with
        | None => (clear_data s, Some DataUnavailable)
        | Some all_data =>
            ({| ss_city_name := city_name_found; ss_weather_data := Some all_data;
                ss_city_search_done := true; ss_country := Some country;
                ss_lat := Some (Some lat); ss_lon := Some lon |}, None)
        end
    end.

(** [if st.session_state.city_search_done and st.session_state.weather_data:]
    ([all_data] is a non-empty dict, hence truthy). *)
Definition dashboard_shown (s : Session) : bool :=
  ss_city_search_done s && match ss_weather_data s with Some _ => true | None => false end.

End Session.

Arguments initial_session {Coord Data}.
Arguments ss_city_name {Coord Data} s.
Arguments ss_weather_data {Coord Data} s.
Arguments ss_city_search_done {Coord Data} s.
Arguments ss_country {Coord Data} s.
Arguments ss_lat {Coord Data} s.
Arguments ss_lon {Coord Data} s.
Arguments clear_data {Coord Data} s.
Arguments fetch_and_store_data {Coord Data} get_coordinates get_weather_data city_input s.
Arguments dashboard_shown {Coord Data} s.

(** One click on "Get Weather": the text input, and what [get_coordinates]
    and [get_weather_data] answer during that run of the script (network
    calls; the cache of [get_weather_data] lasts 600 s, so the same city
    may get different answers on different clicks). *)
Record Click (Coord Data : Type) := {
  click_input : string;
  click_get_coordinates : string -> option Coord * option Coord * option string * option string;
  click_get_weather_data : option Coord -> option Coord -> option Data
}.

Arguments click_input {Coord Data} c.
Arguments click_get_coordinates {Coord Data} c _.
Arguments click_get_weather_data {Coord Data} c _ _.

(** Successive clicks on "Get Weather". *)
Fixpoint run_fetches {Coord Data : Type} (clicks : list (Click Coord Data))
  (s : Session Coord Data) : Session Coord Data :=
  match clicks with
  | [] => s
  | c :: r =>
      run_fetches r (fst (fetch_and_store_data (click_get_coordinates c)
                            (click_get_weather_data c) (click_input c) s))
  end.

(** ** The current-conditions card (identical in the three scripts)

    [current.get("weather", [{}])[0].get("icon", "01d")] and
    [current.get("weather", [{}])[0].get("description", "Clear").title()];
    an icon read as JSON [null] is Python's [None] (inner [None]). *)

Record WeatherObj := { w_icon : JField string; w_description : JField string }.

Definition current_icon_description (weather : JField (list WeatherObj))
  : option (option string * string) :=
  w0 <- match weather with
        | Absent => Some {| w_icon := Absent; w_description := Absent |}
        | Null => None
        | Val l => match l with [] => None | w :: _ => Some w end
        end ;;
  let icon_code := get_default (w_icon w0) "01d"%string in
  description <- get_default (w_description w0) "Clear"%string ;;
  Some (icon_code, py_title description).

(** ** The charts of Steps 5 and 6 (identical in the three scripts) *)

(** [if hours:] the annotations [conditions[i].split()[0]] of the points,
    in order; [Some None]: no figure.  The rest of the figure (the
    y-axis range [min(temps) - 3, max(temps) + 3], float arithmetic) does
    not raise on a non-empty list of numbers and is not modelled. *)
Definition hourly_annotations (ps : list HourlyPoint) : option (option (list string)) :=
  match ps with
  | [] => Some None
  | _ :: _ =>
      texts <- mapM (fun p => split_first (condition p)) ps ;;
      Some (Some texts)
  end.

(** Invariants of the loop of Step 6 in App.py after the items [p]: the
    keys are the day keys of [p], without duplicates, and each day keeps
    the icon of its first item. *)
Definition first_icon_inv (srv : Z) (p : list ForecastItem) (d : list (string * App.entry)) : Prop :=
  NoDup (map fst d) /\
  (forall k, In k (map fst d) <-> exists s, In s p /\ day_key srv s = k) /\
  (forall k e, lookup k d = Some e ->
     exists pre s post, p = pre ++ s :: post /\ day_key srv s = k /\ App.icon e = item_icon s /\
       (forall s', In s' pre -> day_key srv s' <> k)).

(** The temperatures [T e] of the entry of each day are those of the items
    of [p] of that day, in order (both variants). *)
Definition temps_inv {V} (T : V -> list Z) (srv : Z) (p : list ForecastItem)
  (d : list (string * V)) : Prop :=
  forall k e, lookup k d = Some e ->
  T e = map item_temp (filter (fun s => String.eqb (day_key srv s) k) p).

(** * Lemmas *)

(** ** The error monad and Python lists *)

Lemma bind_Some {A B} (m : option A) (f : A -> option B) (b : B) :
  bind m f = Some b -> exists a, m = Some a /\ f a = Some b.
Proof. destruct m; simpl; [eauto | discriminate]. Qed.

Lemma mapM_length {A B} (f : A -> option B) l ys :
  mapM f l = Some ys -> List.length ys = List.length l.
Proof.
  revert ys; induction l as [|x r IH]; simpl; intros ys H.
  - injection H as <-; reflexivity.
  - apply bind_Some in H as [y [_ H]]; apply bind_Some in H as [ys' [Hr H]].
    injection H as <-; simpl; rewrite (IH _ Hr); reflexivity.
Qed.

Lemma mapM_In {A B} (f : A -> option B) l ys y :
  mapM f l = Some ys -> In y ys -> exists x, In x l /\ f x = Some y.
Proof.
  revert ys; induction l as [|x r IH]; simpl; intros ys H Hin.
  - injection H as <-; contradiction.
  - apply bind_Some in H as [y' [Hy H]]; apply bind_Some in H as [ys' [Hr H]].
    injection H as <-; destruct Hin as [<- | Hin]; [eauto|].
    destruct (IH _ Hr Hin) as [x' [? ?]]; eauto.
Qed.

Lemma mapM_nth_error {A B} (f : A -> option B) l ys i y :
  mapM f l = Some ys -> nth_error ys i = Some y ->
  exists x, nth_error l i = Some x /\ f x = Some y.
Proof.
  revert ys i; induction l as [|x r IH]; simpl; intros ys i H Hi.
  - injection H as <-; destruct i; discriminate.
  - apply bind_Some in H as [y' [Hy H]]; apply bind_Some in H as [ys' [Hr H]].
    injection H as <-; destruct i as [|i]; simpl in *.
    + injection Hi as <-; eauto.
    + eauto.
Qed.

(** Projections of the results of a loop that succeeded. *)
Lemma mapM_map {A B C} (f : A -> option B) (g : B -> C) (h : A -> C) l ys :
  (forall x y, f x = Some y -> g y = h x) ->
  mapM f l = Some ys -> map g ys = map h l.
Proof.
  intros Hfg; revert ys; induction l as [|x r IH]; simpl; intros ys H.
  - injection H as <-; reflexivity.
  - apply bind_Some in H as [y [Hy H]]; apply bind_Some in H as [ys' [Hr H]].
    injection H as <-; simpl; rewrite (Hfg _ _ Hy), (IH _ Hr); reflexivity.
Qed.

(** Two loops whose iterations agree on a projection agree on it. *)
Lemma mapM_proj {A A' B B' C} (f : A -> option B) (f' : A' -> option B')
  (g : B -> C) (g' : B' -> C) {D} (q : A -> D) (q' : A' -> D) :
  (forall a a', q a = q' a' -> option_map g (f a) = option_map g' (f' a')) ->
  forall la la', map q la = map q' la' ->
  option_map (map g) (mapM f la) = option_map (map g') (mapM f' la').
Proof.
  intros Hq la; induction la as [|a r IH]; intros [|a' r'] Heq; simpl in *;
    try discriminate; [reflexivity|].
  injection Heq as Ha Hr.
  specialize (Hq _ _ Ha); specialize (IH _ Hr).
  destruct (f a) as [b|], (f' a') as [b'|]; simpl in *; try discriminate; [|reflexivity].
  destruct (mapM f r) as [bs|], (mapM f' r') as [bs'|]; simpl in *; try discriminate;
    [|reflexivity].
  injection Hq as Hq; injection IH as IH; rewrite Hq, IH; reflexivity.
Qed.

Lemma mapM_Some {A B} (f : A -> option B) l :
  (forall x, In x l -> exists y, f x = Some y) -> exists ys, mapM f l = Some ys.
Proof.
  induction l as [|x r IH]; simpl; intros H; [eauto|].
  destruct (H x (or_introl eq_refl)) as [y Hy]; rewrite Hy; simpl.
  destruct IH as [ys Hys]; [intros; apply H; auto|].
  rewrite Hys; simpl; eauto.
Qed.

Lemma py_prefix_nonneg {A} (l : list A) n :
  0 <= n -> py_prefix l n = firstn (Z.to_nat n) l.
Proof.
  intros Hn; unfold py_prefix.
  destruct (Z.ltb_spec n 0); [lia|].
  destruct (Z.le_ge_cases n (Z.of_nat (List.length l))).
  - rewrite Z.min_l by lia; reflexivity.
  - rewrite Z.min_r by lia; rewrite Nat2Z.id, firstn_all.
    rewrite firstn_all2; [reflexivity | lia].
Qed.

Lemma In_firstn {A} n (l : list A) x : In x (firstn n l) -> In x l.
Proof.
  intros H; rewrite <- (firstn_skipn n l); apply in_or_app; auto.
Qed.

Lemma nth_error_firstn' {A} n (l : list A) i x :
  nth_error (firstn n l) i = Some x -> nth_error l i = Some x.
Proof.
  revert n i; induction l as [|a r IH]; intros [|n] [|i] H; simpl in *;
    try discriminate; eauto.
Qed.

Lemma fold_max_ge r x : x <= fold_left Z.max r x.
Proof.
  revert x; induction r as [|a r IH]; simpl; intros x; [lia|].
  specialize (IH (Z.max x a)); lia.
Qed.

Lemma fold_min_le r x : fold_left Z.min r x <= x.
Proof.
  revert x; induction r as [|a r IH]; simpl; intros x; [lia|].
  specialize (IH (Z.min x a)); lia.
Qed.

Lemma np_min_le_max l mn mx : np_min l = Some mn -> np_max l = Some mx -> mn <= mx.
Proof.
  destruct l as [|x r]; simpl; intros H1 H2; try discriminate.
  injection H1 as <-; injection H2 as <-.
  pose proof (fold_max_ge r x); pose proof (fold_min_le r x); lia.
Qed.

(** ** Association lists *)

Lemma lookup_modify {V} k k' (f : V -> V) d :
  lookup k (modify k' f d) =
  if String.eqb k k' then option_map f (lookup k d) else lookup k d.
Proof.
  induction d as [|[k0 v] r IH]; simpl.
  - destruct (String.eqb k k'); reflexivity.
  - destruct (String.eqb_spec k' k0) as [<-|Hne]; simpl.
    + destruct (String.eqb_spec k k'); reflexivity.
    + rewrite IH; destruct (String.eqb_spec k k0) as [->|]; [|reflexivity].
      destruct (String.eqb_spec k0 k'); [congruence | reflexivity].
Qed.

Lemma lookup_app_Some {V} k (d e : list (string * V)) v :
  lookup k d = Some v -> lookup k (d ++ e) = Some v.
Proof.
  induction d as [|[k0 v0] r IH]; simpl; [discriminate|].
  destruct (String.eqb k k0); auto.
Qed.

Lemma lookup_app_None {V} k (d e : list (string * V)) :
  lookup k d = None -> lookup k (d ++ e) = lookup k e.
Proof.
  induction d as [|[k0 v0] r IH]; simpl; [auto|].
  destruct (String.eqb k k0); [discriminate | auto].
Qed.

Lemma map_fst_modify {V} k (f : V -> V) d : map fst (modify k f d) = map fst d.
Proof.
  induction d as [|[k0 v] r IH]; simpl; [reflexivity|].
  destruct (String.eqb k k0); simpl; [reflexivity | rewrite IH; reflexivity].
Qed.

Lemma lookup_None_notin {V} k (d : list (string * V)) :
  lookup k d = None -> ~ In k (map fst d).
Proof.
  induction d as [|[k0 v] r IH]; simpl; [auto|].
  destruct (String.eqb_spec k k0); [discriminate|].
  intros H [->|Hin]; [congruence | exact (IH H Hin)].
Qed.

Lemma In_lookup {V} k v (d : list (string * V)) :
  NoDup (map fst d) -> In (k, v) d -> lookup k d = Some v.
Proof.
  induction d as [|[k0 v0] r IH]; simpl; [contradiction|].
  intros Hnd Hin; inversion Hnd as [|? ? Hnotin Hnd']; subst.
  destruct Hin as [Heq|Hin].
  - injection Heq as -> ->; rewrite String.eqb_refl; reflexivity.
  - destruct (String.eqb_spec k k0) as [->|]; [|auto].
    exfalso; apply Hnotin; change k0 with (fst (k0, v)); apply in_map; exact Hin.
Qed.

Lemma lookup_In_keys {V} k v (d : list (string * V)) :
  lookup k d = Some v -> In k (map fst d).
Proof.
  induction d as [|[k0 v0] r IH]; simpl; [discriminate|].
  destruct (String.eqb_spec k k0); [auto | intros H; right; auto].
Qed.

(** ** Calendar *)

Lemma civil_hour_range ts : 0 <= tm_hour (civil ts) <= 23.
Proof.
  unfold civil; simpl.
  pose proof (Z.mod_pos_bound ts 86400 ltac:(lia)).
  split; [apply Z.div_pos | apply Z.lt_succ_r, Z.div_lt_upper_bound]; lia.
Qed.

Lemma noon_dist_le srv x : 0 <= noon_dist srv x <= 12.
Proof.
  unfold noon_dist; pose proof (civil_hour_range (item_dt x + srv)); lia.
Qed.

Lemma in_range_iff ts : in_range ts = true <-> MIN_TS <= ts <= MAX_TS.
Proof.
  unfold in_range; rewrite andb_true_iff, Z.leb_le, Z.leb_le; reflexivity.
Qed.

Lemma fromtimestamp_eq srv ts :
  fromtimestamp srv ts = if naive_in_range srv ts then Some (civil (ts + srv)) else None.
Proof.
  unfold fromtimestamp, naive_in_range, fromtimestamp_utc.
  destruct (in_range (ts + srv)), (in_range (ts + srv - 86400)); reflexivity.
Qed.

Lemma fromtimestamp_Some srv ts t :
  fromtimestamp srv ts = Some t -> t = civil (ts + srv).
Proof.
  rewrite fromtimestamp_eq; destruct (naive_in_range srv ts); [congruence | discriminate].
Qed.

(** ** Hourly slice *)

Lemma hourly_point_core_U o x p :
  Update.hourly_point o x = Some p -> hp_temp p = item_temp x /\ hp_icon p = item_icon x /\
  condition p = py_title (item_description x) /\ hour_label p = Update.hour_label_of (civil (item_dt x + o)).
Proof.
  unfold Update.hourly_point, fromtimestamp_utc; destruct (in_range (item_dt x + o));
    simpl; [intros H; injection H as <-; auto | discriminate].
Qed.

Lemma hourly_point_core_A o x p :
  App.hourly_point o x = Some p -> hp_temp p = item_temp x /\ hp_icon p = item_icon x /\
  condition p = py_title (item_description x).
Proof.
  unfold App.hourly_point, fromtimestamp_utc; destruct (in_range (item_dt x + o));
    simpl; [intros H; injection H as <-; auto | discriminate].
Qed.

Lemma Update_hourly_window l o w ps :
  0 <= w -> Update.hourly l o w = Some ps ->
  List.length ps = Nat.min (Z.to_nat (w / 3)) (List.length l) /\
  map hp_temp ps = map item_temp (firstn (Z.to_nat (w / 3)) l).
Proof.
  intros Hw H; unfold Update.hourly in H.
  rewrite py_prefix_nonneg in H by (apply Z.div_pos; lia).
  split.
  - rewrite (mapM_length _ _ _ H), length_firstn; lia.
  - eapply mapM_map; [|exact H]; intros x p Hp; apply (hourly_point_core_U _ _ _ Hp).
Qed.

Lemma App_hourly_window l o ps :
  App.hourly l o = Some ps ->
  List.length ps = Nat.min 8 (List.length l) /\ map hp_temp ps = map item_temp (firstn 8 l).
Proof.
  intros H; unfold App.hourly in H.
  rewrite py_prefix_nonneg in H by lia.
  split.
  - rewrite (mapM_length _ _ _ H), length_firstn; lia.
  - eapply mapM_map; [|exact H]; intros x p Hp; apply (hourly_point_core_A _ _ _ Hp).
Qed.

(** ** Daily summary: emitting an entry *)

Lemma Update_emit_Some k e d :
  Update.emit (k, e) = Some d ->
  ds_day d = k /\ ds_icon d = Update.icon e /\ Update.temps e <> [] /\
  np_max (Update.temps e) = Some (ds_max d) /\ np_min (Update.temps e) = Some (ds_min d).
Proof.
  unfold Update.emit; intros H.
  apply bind_Some in H as [mx [Hmx H]]; apply bind_Some in H as [mn [Hmn H]].
  injection H as <-; simpl; repeat split; auto.
  intros Ht; rewrite Ht in Hmx; discriminate.
Qed.

Lemma App_emit_Some k e d :
  App.emit (k, e) = Some d ->
  ds_day d = k /\ ds_icon d = App.icon e /\
  np_max (App.temps e) = Some (ds_max d) /\ np_min (App.temps e) = Some (ds_min d).
Proof.
  unfold App.emit; intros H.
  apply bind_Some in H as [mx [Hmx H]]; apply bind_Some in H as [mn [Hmn H]].
  injection H as <-; simpl; auto.
Qed.

(** ** Claims *)

(** C9: [get_aqi_category] maps 1..5 to Good, Fair, Moderate, Poor and
    Very Poor with a colour of its own, and every other value, including
    an absent one, to "Unknown" with the neutral colour ("white" in App.py,
    "#333333" in new.py and update.py); it is total. *)
Theorem get_aqi_category_table :
  (forall i, 1 <= i <= 5 ->
     fst (App.get_aqi_category (Some i)) =
       nth (Z.to_nat (i - 1)) ["Good"; "Fair"; "Moderate"; "Poor"; "Very Poor"]%string ""%string /\
     fst (New.get_aqi_category (Some i)) = fst (App.get_aqi_category (Some i)) /\
     fst (Update.get_aqi_category (Some i)) = fst (App.get_aqi_category (Some i)) /\
     snd (App.get_aqi_category (Some i)) <> "white"%string /\
     snd (New.get_aqi_category (Some i)) <> "#333333"%string /\
     snd (Update.get_aqi_category (Some i)) <> "#333333"%string) /\
  (forall v, (forall i, v = Some i -> i < 1 \/ 5 < i) ->
     App.get_aqi_category v = ("Unknown", "white")%string /\
     New.get_aqi_category v = ("Unknown", "#333333")%string /\
     Update.get_aqi_category v = ("Unknown", "#333333")%string) /\
  fst (Update.get_aqi_category (Some 3)) = "Moderate"%string /\
  Update.get_aqi_category (Some 9) = ("Unknown", "#333333")%string /\
  App.get_aqi_category None = ("Unknown", "white")%string.
Proof.
  split; [|split; [|repeat split; reflexivity]].
  - intros i Hi.
    assert (i = 1 \/ i = 2 \/ i = 3 \/ i = 4 \/ i = 5) as Hc by lia.
    repeat destruct Hc as [->|Hc]; subst; repeat split; cbn; discriminate.
  - intros [v|] Hv; [|repeat split].
    specialize (Hv v eq_refl).
    unfold App.get_aqi_category, New.get_aqi_category, Update.get_aqi_category; cbn [find fst snd].
    repeat match goal with
           | |- context [?a =? v] =>
               let E := fresh in destruct (Z.eqb_spec a v) as [E|E]; [lia|]
           end.
    repeat split.
Qed.

(** C9 at the spec's inputs 3 and 9. *)
Lemma get_aqi_category_table_witness :
  (1 <= 3 <= 5) /\
  fst (App.get_aqi_category (Some 3)) =
    nth (Z.to_nat (3 - 1)) ["Good"; "Fair"; "Moderate"; "Poor"; "Very Poor"]%string ""%string /\
  Update.get_aqi_category (Some 9) = ("Unknown", "#333333")%string.
Proof.
  split; [lia|]; split.
  - apply (proj1 get_aqi_category_table 3); lia.
  - apply (proj1 (proj2 get_aqi_category_table) (Some 9)).
    intros i Hi; injection Hi as <-; lia.
Defined.

(** C3 (counterexample): 19800 seconds are five and a half hours, and the
    display of this offset is "UTC+05:30", not "UTC+05:00". *)
Lemma offset_display_19800_not_0500 : offset_display 19800 <> "UTC+05:00"%string.
Proof. intros H; vm_compute in H; discriminate H. Qed.

(** C3 (amended): for a non-negative offset, or a negative offset of whole
    hours, [offset_display] renders "UTC", the sign ('+' exactly when the
    offset is >= 0), the whole hours |tz| / 3600 and the remaining minutes
    (|tz| mod 3600) / 60, each on two digits; 19800 gives "UTC+05:30",
    -18000 gives "UTC-05:00" and 0 gives "UTC+00:00". *)
Theorem offset_display_fields (tz : Z) :
  (0 <= tz \/ tz mod 3600 = 0) ->
  offset_display tz =
    ("UTC" ++ (if (0 <=? tz)%Z then "+" else "-") ++ fmt02 (Z.abs tz / 3600)%Z ++ ":" ++
     fmt02 ((Z.abs tz mod 3600) / 60)%Z)%string /\
  offset_display 19800 = "UTC+05:30"%string /\
  offset_display (-18000) = "UTC-05:00"%string /\
  offset_display 0 = "UTC+00:00"%string.
Proof.
  intros Htz; split; [|repeat split; reflexivity].
  unfold offset_display.
  assert (Hh : Z.abs (Z.quot tz 3600) = Z.abs tz / 3600).
  { rewrite <- (Z.quot_abs tz 3600) by lia.
    apply Z.quot_div_nonneg; lia. }
  assert (Hm : Z.abs ((tz mod 3600) / 60) = (Z.abs tz mod 3600) / 60).
  { destruct (Z.le_gt_cases 0 tz) as [Hpos|Hneg].
    - rewrite (Z.abs_eq tz) by lia.
      apply Z.abs_eq, Z.div_pos; [apply Z.mod_pos_bound|]; lia.
    - destruct Htz as [|H0]; [lia|].
      rewrite (Z.abs_neq tz), H0 by lia.
      rewrite (Z_mod_zero_opp_full _ _ H0); reflexivity. }
  rewrite Hh, Hm; reflexivity.
Qed.

Lemma offset_display_fields_witness :
  (0 <= 19800 \/ 19800 mod 3600 = 0) /\
  offset_display 19800 =
    ("UTC" ++ (if (0 <=? 19800)%Z then "+" else "-") ++ fmt02 (Z.abs 19800 / 3600)%Z ++ ":" ++
     fmt02 ((Z.abs 19800 mod 3600) / 60)%Z)%string.
Proof.
  split; [left; lia|].
  apply (offset_display_fields 19800); left; lia.
Defined.

(** C2 (code bug): in update.py the label [strftime("%a %I %p").lstrip('0')]
    starts with the weekday, so [lstrip('0')] strips nothing and the hour
    keeps its leading zero: eight items from local midnight are labelled
    "Thu 12 AM", "Thu 03 AM", ..., "Thu 09 PM", and 14:00 is "Thu 02 PM";
    App.py, whose label starts with the hour, strips it ("2 PM"). *)
Theorem hour_label_keeps_leading_zero :
  option_map (map hour_label) (Update.hourly day8 0 24) =
    Some ["Thu 12 AM"; "Thu 03 AM"; "Thu 06 AM"; "Thu 09 AM";
          "Thu 12 PM"; "Thu 03 PM"; "Thu 06 PM"; "Thu 09 PM"]%string /\
  option_map (map hour_label) (Update.hourly [mk 50400 20 "01d"] 0 24) =
    Some ["Thu 02 PM"%string] /\
  option_map (map hour_label) (App.hourly [mk 50400 20 "01d"] 0) = Some ["2 PM"%string].
Proof. repeat split; vm_compute; reflexivity. Qed.

(** C6: the 24-hour window of update.py yields min(8, len) points and the
    9-hour window min(3, len), the temperatures of the first items in input
    order; App.py's fixed slice [[:8]] also yields min(8, len). *)
Theorem hourly_window_length (l : list ForecastItem) (o : Z) :
  (forall ps, Update.hourly l o 24 = Some ps ->
     List.length ps = Nat.min 8 (List.length l) /\ map hp_temp ps = map item_temp (firstn 8 l)) /\
  (forall ps, Update.hourly l o 9 = Some ps ->
     List.length ps = Nat.min 3 (List.length l) /\ map hp_temp ps = map item_temp (firstn 3 l)) /\
  (forall ps, App.hourly l o = Some ps ->
     List.length ps = Nat.min 8 (List.length l) /\ map hp_temp ps = map item_temp (firstn 8 l)).
Proof.
  split; [|split].
  - intros ps H; exact (Update_hourly_window l o 24 ps ltac:(lia) H).
  - intros ps H; exact (Update_hourly_window l o 9 ps ltac:(lia) H).
  - exact (App_hourly_window l o).
Qed.

Lemma hourly_window_length_witness :
  exists ps, Update.hourly day8 0 9 = Some ps /\
    List.length ps = Nat.min 3 (List.length day8) /\ map hp_temp ps = map item_temp (firstn 3 day8).
Proof.
  exists (match Update.hourly day8 0 9 with Some ps => ps | None => [] end).
  split; [vm_compute; reflexivity|].
  apply (proj1 (proj2 (hourly_window_length day8 0))); vm_compute; reflexivity.
Defined.

(** C10: every daily summary of update.py and of App.py has its minimum
    temperature at most its maximum. *)
Theorem daily_min_le_max (srv : Z) (l : list ForecastItem) :
  (forall ds, Update.daily srv l = Some ds -> Forall (fun d => ds_min d <= ds_max d) ds) /\
  (forall ds, App.daily srv l = Some ds -> Forall (fun d => ds_min d <= ds_max d) ds).
Proof.
  split; intros ds H; unfold Update.daily, App.daily in H;
    apply bind_Some in H as [dd [_ H]]; apply Forall_forall; intros d Hd;
    destruct (mapM_In _ _ _ _ H Hd) as [[k e] [_ He]].
  - apply Update_emit_Some in He as (_ & _ & _ & Hmx & Hmn).
    exact (np_min_le_max _ _ _ Hmn Hmx).
  - apply App_emit_Some in He as (_ & _ & Hmx & Hmn).
    exact (np_min_le_max _ _ _ Hmn Hmx).
Qed.

Lemma daily_min_le_max_witness :
  exists ds, Update.daily 0 day8 = Some ds /\ Forall (fun d => ds_min d <= ds_max d) ds.
Proof.
  exists (match Update.daily 0 day8 with Some ds => ds | None => [] end).
  split; [vm_compute; reflexivity|].
  apply (proj1 (daily_min_le_max 0 day8)); vm_compute; reflexivity.
Defined.

(** ** First occurrences *)

Lemma first_index_app_in k ks e :
  In k ks -> first_index k (ks ++ e) = first_index k ks.
Proof.
  induction ks as [|a r IH]; simpl; [contradiction|].
  destruct (String.eqb_spec k a); [reflexivity|].
  intros [->|Hin]; [congruence | rewrite IH; auto].
Qed.

Lemma first_index_lt k ks : In k ks -> (first_index k ks < List.length ks)%nat.
Proof.
  induction ks as [|a r IH]; simpl; [contradiction|].
  destruct (String.eqb_spec k a); [lia|].
  intros [->|Hin]; [congruence | specialize (IH Hin); lia].
Qed.

Lemma first_index_app_notin k ks e :
  ~ In k ks -> first_index k (ks ++ k :: e) = List.length ks.
Proof.
  induction ks as [|a r IH]; simpl; intros Hn.
  - rewrite String.eqb_refl; reflexivity.
  - destruct (String.eqb_spec k a); [exfalso; auto|].
    rewrite IH; auto.
Qed.

Lemma ForallOrdPairs_impl {A} (R R' : A -> A -> Prop) l :
  (forall a b, In a l -> In b l -> R a b -> R' a b) ->
  ForallOrdPairs R l -> ForallOrdPairs R' l.
Proof.
  induction l as [|a r IH]; intros H Hf; [constructor|].
  inversion Hf as [|? ? Hr Hfr]; subst; constructor.
  - apply Forall_forall; intros b Hb; apply H; simpl; auto.
    exact (proj1 (Forall_forall _ _) Hr b Hb).
  - apply IH; auto; intros; apply H; simpl; auto.
Qed.

Lemma ForallOrdPairs_snoc {A} (R : A -> A -> Prop) l x :
  ForallOrdPairs R l -> (forall a, In a l -> R a x) -> ForallOrdPairs R (l ++ [x]).
Proof.
  induction l as [|a r IH]; simpl; intros Hf H; [repeat constructor|].
  inversion Hf as [|? ? Hr Hfr]; subst; constructor.
  - apply Forall_app; split; auto.
  - apply IH; auto.
Qed.

Lemma NoDup_snoc {A} (l : list A) x : NoDup l -> ~ In x l -> NoDup (l ++ [x]).
Proof.
  induction l as [|a r IH]; simpl; intros Hnd Hn; [repeat constructor; auto|].
  inversion Hnd; subst; constructor.
  - rewrite in_app_iff; simpl; intros [|[|[]]]; [contradiction|auto].
  - apply IH; auto.
Qed.

Lemma In_keys_lookup {V} k (d : list (string * V)) :
  In k (map fst d) -> exists v, lookup k d = Some v.
Proof.
  induction d as [|[k0 v] r IH]; simpl; [contradiction|].
  destruct (String.eqb_spec k k0); [eauto|].
  intros [->|Hin]; [congruence | auto].
Qed.

(** ** One iteration of Step 6 in update.py *)

Lemma Update_step_norm srv d x d' :
  Update.step srv d x = Some d' ->
  naive_in_range srv (item_dt x) = true /\
  d' = modify (day_key srv x)
         (fun e => if noon_dist srv x <? Update.noon_diff e
                   then {| Update.temps := Update.temps e; Update.icon := item_icon x;
                           Update.noon_diff := noon_dist srv x |}
                   else e)
         (modify (day_key srv x)
            (fun e => {| Update.temps := Update.temps e ++ [item_temp x];
                         Update.icon := Update.icon e; Update.noon_diff := Update.noon_diff e |})
            match lookup (day_key srv x) d with
            | Some _ => d
            | None => d ++ [(day_key srv x, {| Update.temps := []; Update.icon := item_icon x;
                                               Update.noon_diff := 24 |})]
            end).
Proof.
  unfold Update.step; rewrite fromtimestamp_eq.
  destruct (naive_in_range srv (item_dt x)); [|discriminate].
  intros H; injection H as <-; split; reflexivity.
Qed.

Lemma Update_step_spec srv d x d' :
  Update.step srv d x = Some d' ->
  naive_in_range srv (item_dt x) = true /\
  (forall k, k <> day_key srv x -> lookup k d' = lookup k d) /\
  map fst d' = map fst d ++
    match lookup (day_key srv x) d with Some _ => [] | None => [day_key srv x] end /\
  exists e', lookup (day_key srv x) d' = Some e' /\
    match lookup (day_key srv x) d with
    | Some e => Update.temps e' = Update.temps e ++ [item_temp x] /\
        (if noon_dist srv x <? Update.noon_diff e
         then Update.icon e' = item_icon x /\ Update.noon_diff e' = noon_dist srv x
         else Update.icon e' = Update.icon e /\ Update.noon_diff e' = Update.noon_diff e)
    | None => Update.temps e' = [item_temp x] /\ Update.icon e' = item_icon x /\
              Update.noon_diff e' = noon_dist srv x
    end.
Proof.
  intros H; apply Update_step_norm in H as [Hr ->].
  pose proof (noon_dist_le srv x) as Hle.
  set (k := day_key srv x) in *; set (nd := noon_dist srv x) in *.
  split; [exact Hr|]; split; [|split].
  - intros k' Hk'; rewrite !lookup_modify.
    destruct (String.eqb_spec k' k); [contradiction|].
    destruct (lookup k d) eqn:E; [reflexivity|].
    destruct (lookup k' d) eqn:E'.
    + apply lookup_app_Some; exact E'.
    + rewrite lookup_app_None by exact E'; simpl.
      destruct (String.eqb_spec k' k); [contradiction | reflexivity].
  - rewrite !map_fst_modify; destruct (lookup k d); [rewrite app_nil_r; reflexivity|].
    rewrite map_app; reflexivity.
  - rewrite !lookup_modify, String.eqb_refl.
    destruct (lookup k d) as [e|] eqn:E.
    + rewrite E; cbn [option_map Update.temps Update.icon Update.noon_diff].
      eexists; split; [reflexivity|]; cbn [Update.temps Update.icon Update.noon_diff].
      destruct (nd <? Update.noon_diff e); cbn [Update.temps Update.icon Update.noon_diff]; auto.
    + rewrite lookup_app_None by exact E; cbn [lookup fst snd].
      rewrite String.eqb_refl; cbn [option_map Update.temps Update.icon Update.noon_diff].
      destruct (Z.ltb_spec nd 24); [|lia].
      eexists; split; [reflexivity|]; cbn [Update.temps Update.icon Update.noon_diff app]; auto.
Qed.

Lemma In_day_keys srv p k :
  (exists s, In s p /\ day_key srv s = k) -> In k (map (day_key srv) p).
Proof. intros [s [Hin <-]]; apply in_map; exact Hin. Qed.

Lemma icon_inv_step srv p d x d' :
  icon_inv srv p d -> keys_inv srv p d -> Update.step srv d x = Some d' ->
  icon_inv srv (p ++ [x]) d'.
Proof.
  intros Hi [_ [Hiff _]] Hs.
  destruct (Update_step_spec _ _ _ _ Hs) as (_ & Hother & _ & e' & He' & Hcase).
  intros k e Hl.
  destruct (String.eqb_spec k (day_key srv x)) as [->|Hne].
  - rewrite He' in Hl; injection Hl as <-.
    destruct (lookup (day_key srv x) d) as [e0|] eqn:E.
    + destruct (Hi _ _ E) as (pre & s & post & Hp & Hks & Hic & Hnd & Hpre & Hpost).
      destruct Hcase as [_ Hcase].
      destruct (Z.ltb_spec (noon_dist srv x) (Update.noon_diff e0)) as [Hlt|Hge];
        destruct Hcase as [Hic' Hnd'].
      * exists p, x, []; repeat split; auto; [|intros ? []].
        intros s' Hin Hks'; subst p; apply in_app_iff in Hin as [Hin|[<-|Hin]].
        -- specialize (Hpre s' Hin Hks'); lia.
        -- lia.
        -- specialize (Hpost s' Hin Hks'); lia.
      * exists pre, s, (post ++ [x]); repeat split; auto; [|congruence..|].
        -- rewrite Hp, <- app_assoc; reflexivity.
        -- intros s' Hin Hks'; apply in_app_iff in Hin as [Hin|[<-|[]]]; auto; lia.
    + destruct Hcase as (_ & Hic' & Hnd').
      exists p, x, []; repeat split; auto; [|intros ? []].
      intros s' Hin Hks'; exfalso.
      apply (lookup_None_notin _ _ E), Hiff; eauto.
  - rewrite Hother in Hl by exact Hne.
    destruct (Hi _ _ Hl) as (pre & s & post & Hp & Hks & Hic & Hnd & Hpre & Hpost).
    exists pre, s, (post ++ [x]); repeat split; auto.
    + rewrite Hp, <- app_assoc; reflexivity.
    + intros s' Hin Hks'; apply in_app_iff in Hin as [Hin|[<-|[]]]; auto; congruence.
Qed.

Lemma keys_inv_step srv p d x d' :
  keys_inv srv p d -> Update.step srv d x = Some d' -> keys_inv srv (p ++ [x]) d'.
Proof.
  intros (Hnd & Hiff & Hord & Htemps) Hs.
  destruct (Update_step_spec _ _ _ _ Hs) as (_ & Hother & Hkeys & e' & He' & Hcase).
  assert (Ht : forall k e, lookup k d' = Some e -> Update.temps e <> []).
  { intros k e Hl; destruct (String.eqb_spec k (day_key srv x)) as [->|Hne].
    - rewrite He' in Hl; injection Hl as <-.
      destruct (lookup (day_key srv x) d); destruct Hcase as [-> _];
        [intros Hc; apply app_eq_nil in Hc as [_ Hc] |]; discriminate.
    - rewrite Hother in Hl by exact Hne; eauto. }
  assert (Hold : forall a, In a (map fst d) -> In a (map (day_key srv) p)).
  { intros a Ha; apply In_day_keys, Hiff, Ha. }
  assert (Hord' : ForallOrdPairs (fun a b => (first_index a (map (day_key srv) (p ++ [x])) <
                              first_index b (map (day_key srv) (p ++ [x])))%nat) (map fst d)).
  { eapply ForallOrdPairs_impl; [|exact Hord]; intros a b Ha Hb Hab.
    rewrite map_app, !first_index_app_in by auto; exact Hab. }
  unfold keys_inv; rewrite Hkeys; destruct (lookup (day_key srv x) d) as [e0|] eqn:E.
  - rewrite app_nil_r; repeat split; auto.
    + intros Hk; apply Hiff in Hk as [s [Hin Hks]]; exists s; rewrite in_app_iff; auto.
    + intros [s [Hin Hks]]; apply in_app_iff in Hin as [Hin|[<-|[]]].
      * apply Hiff; eauto.
      * subst k; eapply lookup_In_keys; exact E.
  - assert (Hnotin : ~ In (day_key srv x) (map fst d)) by (apply lookup_None_notin; exact E).
    assert (Hnotp : ~ In (day_key srv x) (map (day_key srv) p)).
    { intros Hin; apply in_map_iff in Hin as [s [Hks Hin]]; apply Hnotin, Hiff; eauto. }
    repeat split; auto.
    + apply NoDup_snoc; auto.
    + intros Hk; apply in_app_iff in Hk as [Hk|[<-|[]]].
      * apply Hiff in Hk as [s [Hin Hks]]; exists s; rewrite in_app_iff; auto.
      * exists x; rewrite in_app_iff; simpl; auto.
    + intros [s [Hin Hks]]; apply in_app_iff; apply in_app_iff in Hin as [Hin|[<-|[]]].
      * left; apply Hiff; eauto.
      * right; left; exact Hks.
    + apply ForallOrdPairs_snoc; [exact Hord'|].
      intros a Ha; rewrite map_app; simpl.
      rewrite first_index_app_in by auto; rewrite first_index_app_notin by exact Hnotp.
      apply first_index_lt; auto.
Qed.

Lemma inv_nil srv : icon_inv srv [] [] /\ keys_inv srv [] [].
Proof.
  split; [intros k e H; discriminate H|].
  repeat split; [constructor | intros [] | intros [s [[] _]] | constructor | ].
  intros k e H; discriminate H.
Qed.

Lemma Update_aggregate_inv srv l : forall p d d',
  Update.aggregate srv d l = Some d' -> icon_inv srv p d -> keys_inv srv p d ->
  icon_inv srv (p ++ l) d' /\ keys_inv srv (p ++ l) d'.
Proof.
  induction l as [|x r IH]; simpl; intros p d d' H Hi Hk.
  - injection H as <-; rewrite app_nil_r; auto.
  - apply bind_Some in H as [d1 [Hs Ha]].
    pose proof (icon_inv_step _ _ _ _ _ Hi Hk Hs) as Hi1.
    pose proof (keys_inv_step _ _ _ _ _ Hk Hs) as Hk1.
    destruct (IH (p ++ [x]) d1 d' Ha Hi1 Hk1) as [H1 H2].
    rewrite <- app_assoc in H1, H2; simpl in H1, H2; auto.
Qed.

Lemma Update_daily_inv srv l ds :
  Update.daily srv l = Some ds ->
  exists d, icon_inv srv l d /\ keys_inv srv l d /\ mapM Update.emit (firstn 5 d) = Some ds.
Proof.
  unfold Update.daily; intros H; apply bind_Some in H as [d [Ha Hm]].
  destruct (inv_nil srv) as [Hi Hk].
  destruct (Update_aggregate_inv srv l [] [] d Ha Hi Hk) as [Hi' Hk'].
  rewrite py_prefix_nonneg in Hm by lia.
  exists d; auto.
Qed.

Lemma Update_daily_entry srv l ds dsum :
  Update.daily srv l = Some ds -> In dsum ds ->
  exists d e, icon_inv srv l d /\ keys_inv srv l d /\ lookup (ds_day dsum) d = Some e /\
    ds_icon dsum = Update.icon e.
Proof.
  intros H Hin; destruct (Update_daily_inv _ _ _ H) as (d & Hi & Hk & Hm).
  destruct (mapM_In _ _ _ _ Hm Hin) as [[k e] [Hke He]].
  apply Update_emit_Some in He as (Hday & Hic & _).
  exists d, e; split; [exact Hi|]; split; [exact Hk|]; split; [|exact Hic].
  rewrite Hday; apply In_lookup; [apply Hk | exact (In_firstn _ _ _ Hke)].
Qed.

(** C4: in update.py the icon of every day is the icon of the first item of
    that day (in input order) whose hour on the machine's clock, without the
    location's offset, is closest to noon: the items of that day before it are
    strictly farther from noon, those after it are not closer.  Two items of
    one day at 09:00 and 15:00 (both 3 hours from noon) give the icon of the
    09:00 item. *)
Theorem daily_icon_closest_to_noon :
  (forall srv l ds, Update.daily srv l = Some ds ->
   forall d, In d ds ->
   exists pre s post, l = pre ++ s :: post /\ day_key srv s = ds_day d /\
     ds_icon d = item_icon s /\
     (forall s', In s' pre -> day_key srv s' = ds_day d -> noon_dist srv s < noon_dist srv s') /\
     (forall s', In s' post -> day_key srv s' = ds_day d -> noon_dist srv s <= noon_dist srv s')) /\
  Update.daily 0 [mk 32400 10 "09d"; mk 54000 15 "15d"] =
    Some [{| ds_day := "Thu"; ds_max := 15; ds_min := 10; ds_icon := "09d" |}]%string.
Proof.
  split; [|vm_compute; reflexivity].
  intros srv l ds H d Hin.
  destruct (Update_daily_entry _ _ _ _ H Hin) as (dd & e & Hi & _ & Hl & Hic).
  destruct (Hi _ _ Hl) as (pre & s & post & Hp & Hks & Hic' & _ & Hpre & Hpost).
  exists pre, s, post; repeat split; auto; congruence.
Qed.

Lemma daily_icon_closest_to_noon_witness :
  exists ds, Update.daily 0 day8 = Some ds /\
   forall d, In d ds ->
   exists pre s post, day8 = pre ++ s :: post /\ day_key 0 s = ds_day d /\
     ds_icon d = item_icon s /\
     (forall s', In s' pre -> day_key 0 s' = ds_day d -> noon_dist 0 s < noon_dist 0 s') /\
     (forall s', In s' post -> day_key 0 s' = ds_day d -> noon_dist 0 s <= noon_dist 0 s').
Proof.
  exists (match Update.daily 0 day8 with Some ds => ds | None => [] end).
  split; [vm_compute; reflexivity|].
  apply (proj1 daily_icon_closest_to_noon 0 day8); vm_compute; reflexivity.
Defined.

(** C5: in update.py the label of the i-th hourly point is formatted from
    the timestamp of the i-th item plus the location's offset, while the day
    of every daily summary is the weekday of the timestamp of one of the
    items on the machine's own clock: [daily] does not take the offset. *)
Theorem day_key_raw_hour_label_offset (srv o w : Z) (l : list ForecastItem)
  (ps : list HourlyPoint) (ds : list DailySummary) :
  Update.hourly l o w = Some ps -> Update.daily srv l = Some ds ->
  (forall i p, nth_error ps i = Some p ->
     exists s, nth_error l i = Some s /\
       hour_label p = Update.hour_label_of (civil (item_dt s + o))) /\
  (forall d, In d ds -> exists s, In s l /\ ds_day d = strftime_a (civil (item_dt s + srv))).
Proof.
  intros Hh Hd; split.
  - intros i p Hp; unfold Update.hourly in Hh.
    destruct (mapM_nth_error _ _ _ _ _ Hh Hp) as [s [Hs Hsp]].
    exists s; split.
    + unfold py_prefix in Hs; exact (nth_error_firstn' _ _ _ _ Hs).
    + apply (hourly_point_core_U _ _ _ Hsp).
  - intros d Hin.
    destruct (Update_daily_entry _ _ _ _ Hd Hin) as (dd & e & _ & (_ & Hiff & _) & Hl & _).
    destruct (proj1 (Hiff (ds_day d)) (lookup_In_keys _ _ _ Hl)) as [s [Hs Hks]].
    exists s; split; auto.
Qed.

Lemma day_key_raw_hour_label_offset_witness :
  exists ps ds, Update.hourly day8 3600 24 = Some ps /\ Update.daily 0 day8 = Some ds /\
  (forall i p, nth_error ps i = Some p ->
     exists s, nth_error day8 i = Some s /\
       hour_label p = Update.hour_label_of (civil (item_dt s + 3600))) /\
  (forall d, In d ds -> exists s, In s day8 /\ ds_day d = strftime_a (civil (item_dt s + 0))).
Proof.
  exists (match Update.hourly day8 3600 24 with Some ps => ps | None => [] end).
  exists (match Update.daily 0 day8 with Some ds => ds | None => [] end).
  split; [vm_compute; reflexivity|]; split; [vm_compute; reflexivity|].
  apply (day_key_raw_hour_label_offset 0 3600 24 day8); vm_compute; reflexivity.
Defined.

(** C8: the days of update.py's summary are the first [min 5 n] of the [n]
    distinct day keys of the items, taken in the order of their first
    occurrence; the keys after the fifth are dropped. *)
Theorem daily_first_seen_order (srv : Z) (l : list ForecastItem) (ds : list DailySummary) :
  Update.daily srv l = Some ds ->
  exists groups rest,
    groups = map ds_day ds ++ rest /\
    List.length ds = Nat.min 5 (List.length groups) /\
    NoDup groups /\
    (forall k, In k groups <-> exists s, In s l /\ day_key srv s = k) /\
    ForallOrdPairs (fun a b => (first_index a (map (day_key srv) l) <
                                first_index b (map (day_key srv) l))%nat) groups.
Proof.
  intros H; destruct (Update_daily_inv _ _ _ H) as (d & _ & (Hnd & Hiff & Hord & _) & Hm).
  exists (map fst d), (skipn 5 (map fst d)).
  assert (Hdays : map ds_day ds = map fst (firstn 5 d)).
  { eapply mapM_map; [|exact Hm]; intros [k e] dsum He.
    apply Update_emit_Some in He as [-> _]; reflexivity. }
  repeat split; auto.
  - rewrite Hdays, <- firstn_map, firstn_skipn; reflexivity.
  - rewrite (mapM_length _ _ _ Hm), length_firstn, length_map; reflexivity.
  - intros Hk; apply Hiff; exact Hk.
  - intros Hk; apply Hiff; exact Hk.
Qed.

Lemma daily_first_seen_order_witness :
  map (day_key 0) week_mixed = ["Sat"; "Thu"; "Sat"; "Mon"; "Fri"; "Wed"; "Tue"; "Sun"]%string /\
  exists ds, Update.daily 0 week_mixed = Some ds /\
  map ds_day ds = ["Sat"; "Thu"; "Mon"; "Fri"; "Wed"]%string /\
  exists groups rest,
    groups = map ds_day ds ++ rest /\
    List.length ds = Nat.min 5 (List.length groups) /\
    NoDup groups /\
    (forall k, In k groups <-> exists s, In s week_mixed /\ day_key 0 s = k) /\
    ForallOrdPairs (fun a b => (first_index a (map (day_key 0) week_mixed) <
                                first_index b (map (day_key 0) week_mixed))%nat) groups.
Proof.
  split; [vm_compute; reflexivity|].
  exists (match Update.daily 0 week_mixed with Some ds => ds | None => [] end).
  split; [vm_compute; reflexivity|]; split; [vm_compute; reflexivity|].
  apply (daily_first_seen_order 0 week_mixed); vm_compute; reflexivity.
Defined.

(** ** Comparing the variants *)

Lemma lookup_map_snd {V W} (g : V -> W) k (d : list (string * V)) :
  lookup k (map (fun p => (fst p, g (snd p))) d) = option_map g (lookup k d).
Proof.
  induction d as [|[k0 v] r IH]; simpl; [reflexivity|].
  destruct (String.eqb k k0); [reflexivity | exact IH].
Qed.

Lemma map_modify {V W} (g : V -> W) (f : V -> V) (f' : W -> W) k d :
  (forall v, g (f v) = f' (g v)) ->
  map (fun p => (fst p, g (snd p))) (modify k f d) =
  modify k f' (map (fun p => (fst p, g (snd p))) d).
Proof.
  intros Hf; induction d as [|[k0 v] r IH]; simpl; [reflexivity|].
  destruct (String.eqb k k0); simpl; [rewrite Hf; reflexivity | rewrite IH; reflexivity].
Qed.

Lemma modify_id {V} k (f : V -> V) d : (forall v, f v = v) -> modify k f d = d.
Proof.
  intros Hf; induction d as [|[k0 v] r IH]; simpl; [reflexivity|].
  destruct (String.eqb k k0); [rewrite Hf | rewrite IH]; reflexivity.
Qed.

Lemma App_step_eq srv d x :
  App.step srv d x =
  if naive_in_range srv (item_dt x) then
    Some (modify (day_key srv x)
            (fun e => {| App.temps := App.temps e ++ [item_temp x]; App.icon := App.icon e |})
            match lookup (day_key srv x) d with
            | Some _ => d
            | None => d ++ [(day_key srv x, {| App.temps := []; App.icon := item_icon x |})]
            end)
  else None.
Proof.
  unfold App.step; rewrite fromtimestamp_eq.
  destruct (naive_in_range srv (item_dt x)); reflexivity.
Qed.

Lemma Update_step_None srv d x :
  naive_in_range srv (item_dt x) = false -> Update.step srv d x = None.
Proof.
  unfold Update.step; rewrite fromtimestamp_eq; intros ->; reflexivity.
Qed.

Lemma Update_step_Some srv d x :
  naive_in_range srv (item_dt x) = true -> exists d', Update.step srv d x = Some d'.
Proof.
  unfold Update.step; rewrite fromtimestamp_eq; intros ->; eexists; reflexivity.
Qed.

Lemma step_sim srv dA dU x :
  map projA_entry dA = map projU_entry dU ->
  option_map (map projA_entry) (App.step srv dA x) =
  option_map (map projU_entry) (Update.step srv dU x).
Proof.
  intros H; rewrite App_step_eq.
  destruct (naive_in_range srv (item_dt x)) eqn:Hr;
    [|rewrite Update_step_None by exact Hr; reflexivity].
  destruct (Update_step_Some srv dU x Hr) as [dU' HU]; rewrite HU.
  apply Update_step_norm in HU as [_ ->]; simpl; f_equal.
  unfold projA_entry, projU_entry in *.
  rewrite (map_modify (fun e => Update.temps e) _ (fun t => t))
    by (intros v; destruct (_ <? _); reflexivity).
  rewrite (modify_id (V:=list Z) (day_key srv x) (fun t => t)) by reflexivity.
  rewrite (map_modify (fun e => App.temps e) _ (fun t => t ++ [item_temp x])) by reflexivity.
  rewrite (map_modify (fun e => Update.temps e) _ (fun t => t ++ [item_temp x])) by reflexivity.
  f_equal.
  pose proof (f_equal (lookup (day_key srv x)) H) as Hl.
  rewrite !lookup_map_snd in Hl.
  destruct (lookup (day_key srv x) dA), (lookup (day_key srv x) dU); try discriminate;
    [exact H|].
  rewrite !map_app, H; reflexivity.
Qed.

Lemma aggregate_sim srv l : forall dA dU,
  map projA_entry dA = map projU_entry dU ->
  option_map (map projA_entry) (App.aggregate srv dA l) =
  option_map (map projU_entry) (Update.aggregate srv dU l).
Proof.
  induction l as [|x r IH]; simpl; intros dA dU H; [rewrite H; reflexivity|].
  pose proof (step_sim srv dA dU x H) as Hs.
  destruct (App.step srv dA x), (Update.step srv dU x); simpl in Hs; try discriminate;
    [|reflexivity].
  injection Hs as Hs; apply IH; exact Hs.
Qed.

Lemma New_aggregate_App srv l : forall d, New.aggregate srv d l = App.aggregate srv d l.
Proof.
  induction l as [|x r IH]; simpl; intros d; [reflexivity|].
  change (New.step srv d x) with (App.step srv d x).
  destruct (App.step srv d x); simpl; auto.
Qed.

(** C1 (counterexample): on the same input the variants' hourly labels
    differ (update.py prefixes the weekday: "12 AM" against "Thu 12 AM"),
    and so does the daily icon (App.py keeps the icon of the day's first
    item, update.py the one closest to noon). *)
Lemma variants_diverge :
  option_map (map hour_label) (App.hourly [mk 0 20 "01n"] 0) <>
  option_map (map hour_label) (Update.hourly [mk 0 20 "01n"] 0 24) /\
  option_map (map ds_icon) (App.daily 0 [mk 0 20 "01n"; mk 43200 25 "01d"]) <>
  option_map (map ds_icon) (Update.daily 0 [mk 0 20 "01n"; mk 43200 25 "01d"]).
Proof. split; intros H; vm_compute in H; discriminate H. Qed.

(** C1 (amended): new.py computes exactly what App.py computes; App.py and
    update.py (at its default 24-hour window) succeed or fail together and
    agree on the temperatures, descriptions and icons of the hourly points
    and on the days, maxima, minima and order of the daily summaries; they
    differ only in the hourly labels and in the daily icon. *)
Theorem variants_agree_on_core (srv o : Z) (l : list ForecastItem) :
  New.hourly l o = App.hourly l o /\
  New.daily srv l = App.daily srv l /\
  option_map (map hp_core) (App.hourly l o) = option_map (map hp_core) (Update.hourly l o 24) /\
  option_map (map ds_core) (App.daily srv l) = option_map (map ds_core) (Update.daily srv l).
Proof.
  split; [reflexivity|]; split; [|split].
  - unfold New.daily, App.daily; rewrite New_aggregate_App; reflexivity.
  - unfold App.hourly, Update.hourly.
    apply (mapM_proj _ _ _ _ (fun x => x) (fun x => x));
      [|reflexivity].
    intros a a' <-; unfold App.hourly_point, Update.hourly_point.
    destruct (fromtimestamp_utc (item_dt a + o)); reflexivity.
  - unfold App.daily, Update.daily.
    pose proof (aggregate_sim srv l [] [] eq_refl) as Hs.
    destruct (App.aggregate srv [] l) as [dA|], (Update.aggregate srv [] l) as [dU|];
      simpl in Hs; try discriminate; [|reflexivity].
    injection Hs as Hs; simpl.
    apply (mapM_proj _ _ _ _ projA_entry projU_entry).
    + intros [k e] [k' e'] Hq; unfold projA_entry, projU_entry in Hq; simpl in Hq.
      injection Hq as <- He; unfold App.emit, Update.emit; rewrite He.
      destruct (np_max (Update.temps e')), (np_min (Update.temps e')); reflexivity.
    + rewrite !py_prefix_nonneg by lia; rewrite <- !firstn_map, Hs; reflexivity.
Qed.

(** C7 (counterexample): the operations raise on timestamps outside the
    range of [datetime]: a timestamp past the year 9999 makes
    [datetime.fromtimestamp] raise in Steps 5 and 6 of update.py and
    App.py, and on a machine running on UTC the timestamp of
    0001-01-01T00:00:00 makes Step 6 raise (the fold probe of the naive
    [datetime.fromtimestamp] falls in the year 0). *)
Lemma out_of_range_raises :
  Update.hourly [mk (MAX_TS + 1) 20 "01d"] 0 24 = None /\
  App.hourly [mk (MAX_TS + 1) 20 "01d"] 0 = None /\
  Update.daily 0 [mk (MAX_TS + 1) 20 "01d"] = None /\
  App.daily 0 [mk (MAX_TS + 1) 20 "01d"] = None /\
  Update.daily 0 [mk MIN_TS 20 "01d"] = None /\
  App.daily 0 [mk MIN_TS 20 "01d"] = None.
Proof. repeat split; vm_compute; reflexivity. Qed.

Lemma Update_aggregate_Some srv l : forall d,
  (forall s, In s l -> naive_in_range srv (item_dt s) = true) ->
  exists d', Update.aggregate srv d l = Some d'.
Proof.
  induction l as [|x r IH]; simpl; intros d H; [eauto|].
  destruct (Update_step_Some srv d x (H x (or_introl eq_refl))) as [d1 Hd1].
  rewrite Hd1; simpl; apply IH; auto.
Qed.

(** C7 (amended): on an empty item list the hourly slices and the daily
    summaries of App.py and update.py are empty; a window [w >= 0] gives
    [min(w / 3, len)] points (the slider only offers multiples of 3); the
    hourly slice of update.py does not raise when every timestamp plus the
    city's offset lies within 0001-01-01T00:00:00 .. 9999-12-31T23:59:59,
    and its daily summary does not raise when every timestamp plus the
    machine's offset lies within 0001-01-02T00:00:00 .. 9999-12-31T23:59:59
    (the naive [datetime.fromtimestamp] also converts the local time one
    day earlier). *)
Theorem empty_input_and_no_raise :
  (forall o w, Update.hourly [] o w = Some []) /\
  (forall o, App.hourly [] o = Some []) /\
  (forall srv, Update.daily srv [] = Some [] /\ App.daily srv [] = Some []) /\
  (forall l o w, 0 <= w -> (forall s, In s l -> MIN_TS <= item_dt s + o <= MAX_TS) ->
     exists ps, Update.hourly l o w = Some ps /\
       List.length ps = Nat.min (Z.to_nat (w / 3)) (List.length l)) /\
  (forall srv l, (forall s, In s l -> MIN_TS + 86400 <= item_dt s + srv <= MAX_TS) ->
     exists ds, Update.daily srv l = Some ds).
Proof.
  split; [intros o w; unfold Update.hourly, py_prefix; simpl;
          destruct (w / 3 <? 0); rewrite firstn_nil; reflexivity|].
  split; [reflexivity|]; split; [split; reflexivity|]; split.
  - intros l o w Hw Hr.
    assert (Hex : exists ps, Update.hourly l o w = Some ps).
    { unfold Update.hourly; apply mapM_Some; intros s Hs.
      rewrite py_prefix_nonneg in Hs by (apply Z.div_pos; lia).
      apply In_firstn in Hs; unfold Update.hourly_point, fromtimestamp_utc.
      rewrite (proj2 (in_range_iff _) (Hr s Hs)); eexists; reflexivity. }
    destruct Hex as [ps Hps]; exists ps; split; [exact Hps|].
    exact (proj1 (Update_hourly_window _ _ _ _ Hw Hps)).
  - intros srv l Hr.
    assert (Hr' : forall s, In s l -> naive_in_range srv (item_dt s) = true).
    { intros s Hs; unfold naive_in_range; rewrite !(proj2 (in_range_iff _)); [reflexivity|..];
        pose proof (Hr s Hs); lia. }
    destruct (Update_aggregate_Some srv l [] Hr') as [d Hd].
    destruct (inv_nil srv) as [Hi0 Hk0].
    destruct (Update_aggregate_inv srv l [] [] d Hd Hi0 Hk0) as [_ (Hnd & _ & _ & Ht)].
    unfold Update.daily; rewrite Hd; simpl.
    apply mapM_Some; intros [k e] Hin.
    rewrite py_prefix_nonneg in Hin by lia; apply In_firstn in Hin.
    pose proof (Ht k e (In_lookup _ _ _ Hnd Hin)) as Hne.
    unfold Update.emit; destruct (Update.temps e) as [|t r]; [contradiction|].
    eexists; reflexivity.
Qed.

Lemma empty_input_and_no_raise_witness :
  (exists ps, Update.hourly day8 0 24 = Some ps /\
    List.length ps = Nat.min (Z.to_nat (24 / 3)) (List.length day8)) /\
  (exists ds, Update.daily 0 day8 = Some ds).
Proof.
  destruct empty_input_and_no_raise as (_ & _ & _ & H & H').
  split.
  - apply (H day8 0 24); [lia|].
    intros s Hs; unfold day8 in Hs; simpl in Hs.
    repeat destruct Hs as [<-|Hs]; [unfold MIN_TS, MAX_TS; simpl; lia ..|contradiction].
  - apply (H' 0 day8).
    intros s Hs; unfold day8 in Hs; simpl in Hs.
    repeat destruct Hs as [<-|Hs]; [unfold MIN_TS, MAX_TS; simpl; lia ..|contradiction].
Defined.

(** * Further properties of the scripts *)

(** ** Two-digit fields *)

Lemma dec_aux_small f n acc : n < 10 -> dec_aux f n acc = String (digit n) acc.
Proof.
  intros Hn; destruct f as [|f]; simpl; [reflexivity|].
  destruct (Z.ltb_spec n 10); [reflexivity | lia].
Qed.

Lemma fmt02_two n :
  0 <= n < 100 -> fmt02 n = String (digit (n / 10)) (String (digit (n mod 10)) EmptyString).
Proof.
  intros Hn; unfold fmt02, dec.
  destruct (Z.ltb_spec n 10) as [Hlt|Hge].
  - rewrite dec_aux_small by exact Hlt; simpl.
    rewrite Z.div_small, Z.mod_small by lia; reflexivity.
  - assert (Hlog : 3 <= Z.log2 n) by (apply (Z.log2_le_pow2 n 3); [lia | cbn; lia]).
    assert (Hf : (2 <= Z.to_nat (Z.log2 n))%nat)
      by (change 2%nat with (Z.to_nat 2); apply Z2Nat.inj_le; lia).
    destruct (Z.to_nat (Z.log2 n)) as [|[|f]]; [lia|lia|].
    cbn [dec_aux]; destruct (Z.ltb_spec n 10); [lia|].
    assert (Hq : n / 10 < 10) by (apply Z.div_lt_upper_bound; lia).
    destruct (Z.ltb_spec (n / 10) 10); [reflexivity | lia].
Qed.

(** ** Whitespace *)

Lemma lstrip_all_space s : all_space s = true -> lstrip_ws s = EmptyString.
Proof.
  induction s as [|c r IH]; simpl; [reflexivity|].
  intros H; apply andb_true_iff in H as [-> H]; auto.
Qed.

Lemma lstrip_not_all_space s :
  all_space s = false -> exists c r, lstrip_ws s = String c r /\ is_space c = false.
Proof.
  induction s as [|c r IH]; simpl; [discriminate|].
  destruct (is_space c) eqn:E; simpl; [exact IH|].
  intros _; exists c, r; auto.
Qed.

Lemma rstrip_empty s : rstrip_ws s = EmptyString <-> all_space s = true.
Proof.
  induction s as [|c r IH]; simpl; [tauto|].
  destruct (rstrip_ws r) as [|c' r'] eqn:E.
  - destruct (is_space c); simpl; [tauto|].
    split; intros H; discriminate H.
  - split; intros H; [discriminate H|].
    apply andb_true_iff in H as [_ H]; apply IH in H; discriminate H.
Qed.

Lemma py_strip_empty s : py_strip s = EmptyString <-> all_space s = true.
Proof.
  unfold py_strip; destruct (all_space s) eqn:E.
  - rewrite lstrip_all_space by exact E; simpl; tauto.
  - destruct (lstrip_not_all_space s E) as (c & r & -> & Hc).
    rewrite rstrip_empty; simpl; rewrite Hc; simpl; split; intros H; discriminate H.
Qed.

Lemma split_first_None s : split_first s = None <-> all_space s = true.
Proof.
  unfold split_first; destruct (all_space s) eqn:E.
  - rewrite lstrip_all_space by exact E; tauto.
  - destruct (lstrip_not_all_space s E) as (c & r & -> & _).
    split; intros H; discriminate H.
Qed.

Lemma is_space_case c :
  is_space (to_lower c) = is_space c /\ is_space (to_upper c) = is_space c.
Proof.
  destruct c as [[] [] [] [] [] [] [] []]; vm_compute; split; reflexivity.
Qed.

Lemma all_space_title_aux b s : all_space (title_aux b s) = all_space s.
Proof.
  revert b; induction s as [|c r IH]; intros b; simpl; [reflexivity|].
  destruct (is_space_case c) as [Hl Hu].
  destruct (is_upper c), (is_lower c), b; simpl;
    rewrite ?Hl, ?Hu, IH; reflexivity.
Qed.

Lemma all_space_title s : all_space (py_title s) = all_space s.
Proof. apply all_space_title_aux. Qed.

(** ** Lists *)

Lemma mapM_None {A B} (f : A -> option B) l :
  mapM f l = None <-> exists x, In x l /\ f x = None.
Proof.
  induction l as [|x r IH]; simpl.
  - split; [discriminate | intros (y & [] & _)].
  - destruct (f x) eqn:Ex; simpl.
    + destruct (mapM f r) eqn:Er; simpl.
      * split; [discriminate|]; intros (y & [<-|Hy] & Hfy); [congruence|].
        pose proof (proj2 IH (ex_intro _ y (conj Hy Hfy))) as Hn; congruence.
      * split; [intros _|reflexivity].
        destruct (proj1 IH eq_refl) as (y & Hy & Hfy); eauto.
    + split; [intros _; eauto | reflexivity].
Qed.

Lemma mapM_In_rev {A B} (f : A -> option B) l ys x :
  mapM f l = Some ys -> In x l -> exists y, In y ys /\ f x = Some y.
Proof.
  revert ys; induction l as [|a r IH]; simpl; intros ys H Hin; [contradiction|].
  apply bind_Some in H as [b [Hb H]]; apply bind_Some in H as [bs [Hbs H]].
  injection H as <-.
  destruct Hin as [<-|Hin]; [exists b; simpl; auto|].
  destruct (IH bs Hbs Hin) as [y [Hy Hfy]]; exists y; simpl; auto.
Qed.

Lemma fold_max_upper r x y : In y (x :: r) -> y <= fold_left Z.max r x.
Proof.
  revert x; induction r as [|a r IH]; simpl; intros x Hy.
  - destruct Hy as [<-|[]]; lia.
  - destruct Hy as [->|[->|Hy]].
    + pose proof (fold_max_ge r (Z.max y a)); lia.
    + pose proof (fold_max_ge r (Z.max x y)); lia.
    + apply IH; simpl; auto.
Qed.

Lemma fold_min_lower r x y : In y (x :: r) -> fold_left Z.min r x <= y.
Proof.
  revert x; induction r as [|a r IH]; simpl; intros x Hy.
  - destruct Hy as [<-|[]]; lia.
  - destruct Hy as [->|[->|Hy]].
    + pose proof (fold_min_le r (Z.min y a)); lia.
    + pose proof (fold_min_le r (Z.min x y)); lia.
    + apply IH; simpl; auto.
Qed.

Lemma fold_max_In r x : In (fold_left Z.max r x) (x :: r).
Proof.
  revert x; induction r as [|a r IH]; simpl; intros x; [auto|].
  destruct (IH (Z.max x a)) as [He|He]; [|auto].
  rewrite <- He; destruct (Z.max_spec x a) as [[_ ->]|[_ ->]]; auto.
Qed.

Lemma fold_min_In r x : In (fold_left Z.min r x) (x :: r).
Proof.
  revert x; induction r as [|a r IH]; simpl; intros x; [auto|].
  destruct (IH (Z.min x a)) as [He|He]; [|auto].
  rewrite <- He; destruct (Z.min_spec x a) as [[_ ->]|[_ ->]]; auto.
Qed.

Lemma np_max_spec l m : np_max l = Some m -> In m l /\ forall y, In y l -> y <= m.
Proof.
  destruct l as [|x r]; simpl; intros H; [discriminate|]; injection H as <-.
  split; [apply fold_max_In | intros y; apply fold_max_upper].
Qed.

Lemma np_min_spec l m : np_min l = Some m -> In m l /\ forall y, In y l -> m <= y.
Proof.
  destruct l as [|x r]; simpl; intros H; [discriminate|]; injection H as <-.
  split; [apply fold_min_In | intros y; apply fold_min_lower].
Qed.

Lemma hour12_range h : 1 <= hour12 h <= 12.
Proof.
  unfold hour12; pose proof (Z.mod_pos_bound h 12 ltac:(lia)).
  destruct (Z.eqb_spec (h mod 12) 0); lia.
Qed.

(** ** [format_local_time] *)

(** X1: [format_local_time ts o] raises when [ts + o] lies outside the years
    1..9999; otherwise it is "hh:mm AM" or "hh:mm PM", eight characters,
    with the 12-hour clock hour [hh] in 01..12, the minute [mm] in 00..59,
    and AM exactly in the first half of the local day.  The label repeats
    every day: shifting [ts] by whole days leaves it unchanged. *)
Theorem format_local_time_fields (ts o : Z) :
  (in_range (ts + o) = false -> format_local_time ts o = None) /\
  (in_range (ts + o) = true ->
     exists h m, 1 <= h <= 12 /\ 0 <= m <= 59 /\
       format_local_time ts o =
         Some (fmt02 h ++ ":" ++ fmt02 m ++ " " ++
               (if ((ts + o) mod 86400 <? 43200)%Z then "AM" else "PM"))%string /\
       String.length (fmt02 h ++ ":" ++ fmt02 m ++ " " ++
               (if ((ts + o) mod 86400 <? 43200)%Z then "AM" else "PM"))%string = 8%nat) /\
  (forall k, in_range (ts + o) = true -> in_range (ts + 86400 * k + o) = true ->
     format_local_time (ts + 86400 * k) o = format_local_time ts o).
Proof.
  split; [|split].
  - intros H; unfold format_local_time; cbv zeta; unfold fromtimestamp_utc.
    rewrite H; reflexivity.
  - intros H; unfold format_local_time; cbv zeta; unfold fromtimestamp_utc.
    rewrite H; cbn [bind].
    set (x := ts + o) in *.
    exists (hour12 (tm_hour (civil x))), ((x mod 3600) / 60).
    pose proof (hour12_range (tm_hour (civil x))).
    pose proof (Z.mod_pos_bound x 3600 ltac:(lia)).
    assert (Hm : 0 <= x mod 3600 / 60 <= 59)
      by (split; [apply Z.div_pos | apply Z.lt_succ_r, Z.div_lt_upper_bound]; lia).
    split; [lia|]; split; [exact Hm|]; split.
    + unfold strftime_I, strftime_p, civil; cbn [tm_hour].
      pose proof (Z.mod_pos_bound x 86400 ltac:(lia)).
      pose proof (Z.div_mod (x mod 86400) 3600 ltac:(lia)).
      pose proof (Z.mod_pos_bound (x mod 86400) 3600 ltac:(lia)).
      destruct (Z.ltb_spec ((x mod 86400) / 3600) 12),
               (Z.ltb_spec (x mod 86400) 43200); try reflexivity; lia.
    + rewrite (fmt02_two (hour12 _)), (fmt02_two (x mod 3600 / 60)) by lia.
      destruct (_ <? 43200); reflexivity.
  - intros k H1 H2; unfold format_local_time; cbv zeta; unfold fromtimestamp_utc.
    assert (E : ts + 86400 * k + o = (ts + o) + k * 86400) by ring.
    rewrite E in *; rewrite H1, H2; cbn [bind].
    assert (E3 : (ts + o + k * 86400) mod 3600 = (ts + o) mod 3600).
    { replace (ts + o + k * 86400) with (ts + o + (24 * k) * 3600) by ring.
      apply Z.mod_add; lia. }
    unfold strftime_I, strftime_p, civil; cbn [tm_hour].
    rewrite E3, Z.mod_add by lia; reflexivity.
Qed.

Lemma format_local_time_fields_witness :
  in_range (19800 + 19800) = true /\
  exists h m, 1 <= h <= 12 /\ 0 <= m <= 59 /\
    format_local_time 19800 19800 =
      Some (fmt02 h ++ ":" ++ fmt02 m ++ " " ++
            (if ((19800 + 19800) mod 86400 <? 43200)%Z then "AM" else "PM"))%string /\
    String.length (fmt02 h ++ ":" ++ fmt02 m ++ " " ++
            (if ((19800 + 19800) mod 86400 <? 43200)%Z then "AM" else "PM"))%string = 8%nat.
Proof.
  split; [vm_compute; reflexivity|].
  apply (proj1 (proj2 (format_local_time_fields 19800 19800))); vm_compute; reflexivity.
Defined.

(** ** Theme *)

(** X2: the theme button always leaves the theme at "light" or "dark"
    (any other stored value becomes "light"); each click changes the
    Plotly template and the map tiles; two clicks from "light" or "dark"
    restore it. *)
Theorem toggle_theme_switches (theme : string) :
  (toggle_theme theme = "light"%string \/ toggle_theme theme = "dark"%string) /\
  plotly_template (toggle_theme theme) <> plotly_template theme /\
  map_tiles (toggle_theme theme) <> map_tiles theme /\
  ((theme = "light"%string \/ theme = "dark"%string) ->
     toggle_theme (toggle_theme theme) = theme).
Proof.
  unfold toggle_theme, plotly_template, map_tiles.
  destruct (String.eqb_spec theme "light") as [->|Hne]; cbn.
  - split; [auto|]; split; [discriminate|]; split; [discriminate|]; reflexivity.
  - split; [auto|]; split; [discriminate|]; split; [discriminate|].
    intros [H|H]; [contradiction | subst; reflexivity].
Qed.

Lemma toggle_theme_switches_witness :
  ("dark"%string = "light"%string \/ "dark"%string = "dark"%string) /\
  toggle_theme (toggle_theme "dark") = "dark"%string.
Proof.
  split; [right; reflexivity|].
  apply (proj2 (proj2 (proj2 (toggle_theme_switches "dark")))); right; reflexivity.
Defined.

(** ** [offset_display] of a negative offset that is not whole hours *)

(** X3: for a negative offset [tz] that is not a whole number of hours,
    [offset_display] shows the whole hours of |tz| but the minutes of the
    floor remainder [tz % 3600], i.e. 60 minus the actual minutes: -2700
    (45 minutes behind UTC) is shown as "UTC-00:15". *)
Theorem offset_display_negative_minutes (tz : Z) :
  tz < 0 -> (- tz) mod 3600 <> 0 ->
  offset_display tz =
    ("UTC-" ++ fmt02 ((- tz) / 3600) ++ ":" ++ fmt02 ((3600 - (- tz) mod 3600) / 60))%string.
Proof.
  intros Hn Hm; unfold offset_display.
  destruct (Z.leb_spec 0 tz); [lia|].
  assert (Hq : Z.quot tz 3600 = - ((- tz) / 3600)).
  { rewrite <- (Z.opp_involutive tz) at 1.
    rewrite Z.quot_opp_l, Z.quot_div_nonneg by lia; reflexivity. }
  assert (Hr : tz mod 3600 = 3600 - (- tz) mod 3600).
  { rewrite <- (Z.opp_involutive tz) at 1; apply Z.mod_opp_l_nz; lia. }
  pose proof (Z.mod_pos_bound (- tz) 3600 ltac:(lia)).
  rewrite Hq, Hr, Z.abs_opp.
  rewrite (Z.abs_eq ((- tz) / 3600)) by (apply Z.div_pos; lia).
  rewrite (Z.abs_eq ((3600 - (- tz) mod 3600) / 60)) by (apply Z.div_pos; lia).
  reflexivity.
Qed.

Lemma offset_display_negative_minutes_witness :
  (-2700 < 0 /\ (- -2700) mod 3600 <> 0) /\
  offset_display (-2700) = "UTC-00:15"%string.
Proof.
  split; [split; [lia | intros H; vm_compute in H; discriminate H]|].
  rewrite (offset_display_negative_minutes (-2700));
    [vm_compute; reflexivity | lia | intros H; vm_compute in H; discriminate H].
Defined.

(** ** [get_coordinates] *)

Ltac geo_no_place :=
  unfold no_place; split;
  [ split; [intros H; discriminate H | intros [(k0 & ks0 & H)|(e0 & r0 & H & _)]; discriminate H]
  | split; [intros _; reflexivity | intros lat lon name country H; discriminate H] ].

(** X4: App.py's [get_coordinates] raises ([KeyError]) exactly when the
    response is a non-empty JSON object (an API error such as an invalid
    key) or its first place lacks "lat", "lon" or "name"; in each of these
    cases update.py's (and new.py's) returns the all-[None] tuple, and
    whenever App.py's returns a latitude, update.py's returns the same
    tuple. *)
Theorem get_coordinates_variants {Coord : Type} (response : option (GeoResponse Coord)) :
  (get_coordinates_App response = None <->
     (exists k ks, response = Some (GeoObject (k :: ks))) \/
     (exists e rest, response = Some (GeoList (e :: rest)) /\
        (geo_lat e = Absent \/ geo_lon e = Absent \/ geo_name e = Absent))) /\
  (get_coordinates_App response = None -> get_coordinates_Update response = no_place) /\
  (forall lat lon name country,
     get_coordinates_App response = Some (Some lat, lon, name, country) ->
     get_coordinates_Update response = (Some lat, lon, name, country)).
Proof.
  destruct response as [[[|e rest]|[|k ks]]|];
    cbn [get_coordinates_App get_coordinates_Update].
  - geo_no_place.
  - unfold first_place; split; [split|split].
    + intros H; right; exists e, rest; split; [reflexivity|].
      destruct (geo_lat e), (geo_lon e), (geo_name e); cbn in H;
        first [left; reflexivity | right; left; reflexivity |
               right; right; reflexivity | discriminate H].
    + intros [(k & ks & H)|(e' & r' & H & Hx)]; [discriminate H|].
      injection H as <- <-.
      destruct Hx as [Hx|[Hx|Hx]]; rewrite Hx; cbn;
        [reflexivity | destruct (geo_lat e); reflexivity |
         destruct (geo_lat e), (geo_lon e); reflexivity].
    + intros H; destruct (geo_lat e) eqn:E1; [reflexivity | reflexivity |].
      rewrite H; reflexivity.
    + intros lat lon name country H.
      destruct (geo_lat e), (geo_lon e), (geo_name e); cbn in H |- *; congruence.
  - geo_no_place.
  - split; [split; [intros _; left; exists k, ks; reflexivity | intros _; reflexivity]|].
    split; [intros _; reflexivity | intros lat lon name country H; discriminate H].
  - geo_no_place.
Qed.

Lemma get_coordinates_variants_witness :
  get_coordinates_App
    (Some (GeoList [{| geo_lat := Val 14; geo_lon := Absent; geo_name := Val "Anantapur"%string;
                       geo_country := Absent |}])) = None /\
  get_coordinates_Update
    (Some (GeoList [{| geo_lat := Val 14; geo_lon := Absent; geo_name := Val "Anantapur"%string;
                       geo_country := Absent |}])) = no_place.
Proof.
  split; [vm_compute; reflexivity|].
  apply (proj1 (proj2 (get_coordinates_variants _))); vm_compute; reflexivity.
Defined.

(** ** [get_weather_data] *)

(** X5: [get_weather_data] returns data exactly when the current-weather
    request succeeded with [cod] equal to the integer 200 and the forecast
    request succeeded, whatever the air-quality request gave (a failed
    air-quality request is stored as [None]); the data holds the three
    bodies and a [timezone_offset] taken from the current weather, 0 when
    that has no "timezone". *)
Theorem get_weather_data_outcome {F A : Type} (current : option CurrentJson)
  (forecast : option F) (aqi : option A) :
  (get_weather_data current forecast aqi <> None <->
     exists c f, current = Some c /\ forecast = Some f /\ cur_cod c = Some (CodInt 200)) /\
  (forall d, get_weather_data current forecast aqi = Some d ->
     wd_current d = current /\ wd_forecast d = forecast /\ wd_aqi d = aqi /\
     exists c, current = Some c /\
       wd_timezone_offset d = Some (match cur_timezone c with Some tz => tz | None => 0 end)).
Proof.
  unfold get_weather_data, cod_not_200.
  destruct current as [c|], forecast as [f|]; cbn.
  1: destruct (cur_cod c) as [[n|str]|] eqn:E; cbn;
     [destruct (Z.eqb_spec n 200) as [->|Hn]; cbn|..].
  1: split; [split; [intros _; exists c, f; auto | intros _; discriminate]|];
     intros d Hd; injection Hd as <-; cbn;
     split; [reflexivity|]; split; [reflexivity|]; split; [reflexivity|];
     exists c; split; reflexivity.
  all: split; [split; [intros H; exfalso; apply H; reflexivity|] | intros d Hd; discriminate Hd].
  all: intros (c' & f' & Hc & Hf & Hcod); try discriminate Hc; try discriminate Hf.
  all: injection Hc as <-; congruence.
Qed.

Lemma get_weather_data_outcome_witness :
  exists d, get_weather_data (Some {| cur_cod := Some (CodInt 200); cur_timezone := None |})
              (Some tt) (@None unit) = Some d /\
    wd_current d = Some {| cur_cod := Some (CodInt 200); cur_timezone := None |} /\
    wd_forecast d = Some tt /\ wd_aqi d = None /\
    exists c, Some {| cur_cod := Some (CodInt 200); cur_timezone := None |} = Some c /\
      wd_timezone_offset d = Some (match cur_timezone c with Some tz => tz | None => 0 end).
Proof.
  exists (match get_weather_data (Some {| cur_cod := Some (CodInt 200); cur_timezone := None |})
                  (Some tt) (@None unit) with
          | Some d => d
          | None => {| wd_current := None; wd_timezone_offset := None;
                       wd_forecast := None; wd_aqi := None |}
          end).
  split; [vm_compute; reflexivity|].
  apply (proj2 (get_weather_data_outcome _ _ _)); vm_compute; reflexivity.
Defined.

(** ** [fetch_and_store_data] and the session state *)

(** X6: a click on "Get Weather" with an input of whitespace only changes
    nothing and shows the empty-input error; with any other input the
    dashboard is shown afterwards exactly when no error is shown, which
    happens exactly when the city is found and its weather data retrieved
    (these data and the name found are then stored); after an error the
    stored data are cleared, so no data of an earlier city stay on screen. *)
Theorem fetch_and_store_data_outcome {Coord Data : Type}
  (gc : string -> option Coord * option Coord * option string * option string)
  (gw : option Coord -> option Coord -> option Data)
  (city_input : string) (s : Session Coord Data) :
  (all_space city_input = true ->
     fetch_and_store_data gc gw city_input s = (s, Some EmptyInput)) /\
  (all_space city_input = false ->
     let '(s', err) := fetch_and_store_data gc gw city_input s in
     (dashboard_shown s' = true <-> err = None) /\
     (err = None <-> exists lat lon name country data,
         gc city_input = (Some lat, lon, name, country) /\ gw (Some lat) lon = Some data /\
         ss_weather_data s' = Some data /\ ss_city_name s' = name) /\
     (err <> None -> ss_weather_data s' = None /\ ss_city_search_done s' = false)).
Proof.
  unfold fetch_and_store_data; split.
  - intros H; apply py_strip_empty in H; rewrite H; reflexivity.
  - intros H.
    destruct (String.eqb_spec (py_strip city_input) "") as [Hs|_];
      [apply py_strip_empty in Hs; congruence|].
    destruct (gc city_input) as [[[[lat|] lon] name] country] eqn:Eg;
      [destruct (gw (Some lat) lon) as [data|] eqn:Ew|]; cbn.
    + split; [split; reflexivity|]; split; [|intros Hc; contradiction Hc; reflexivity].
      split; [intros _; exists lat, lon, name, country, data; auto | reflexivity].
    + split; [split; intros Hc; discriminate Hc|]; split; [|intros _; split; reflexivity].
      split; [intros Hc; discriminate Hc|].
      intros (lat' & lon' & name' & country' & data' & Hg & Hw & Hd & _); discriminate Hd.
    + split; [split; intros Hc; discriminate Hc|]; split; [|intros _; split; reflexivity].
      split; [intros Hc; discriminate Hc|].
      intros (lat' & lon' & name' & country' & data' & Hg & Hw & Hd & _); discriminate Hd.
Qed.

Lemma fetch_and_store_data_outcome_witness :
  all_space "Anantapur" = false /\
  fst (fetch_and_store_data (fun _ => (Some 14%Z, Some 77%Z, Some "Anantapur"%string, Some "IN"%string))
         (fun _ _ => Some tt) "Anantapur" (@initial_session Z unit)) =
    {| ss_city_name := Some "Anantapur"%string; ss_weather_data := Some tt;
       ss_city_search_done := true; ss_country := Some (Some "IN"%string);
       ss_lat := Some (Some 14%Z); ss_lon := Some (Some 77%Z) |} /\
  let '(s', err) :=
    fetch_and_store_data (fun _ => (Some 14%Z, Some 77%Z, Some "Anantapur"%string, Some "IN"%string))
      (fun _ _ => Some tt) "Anantapur" (@initial_session Z unit) in
  (dashboard_shown s' = true <-> err = None) /\
  (err = None <-> exists lat lon name country data,
      (Some 14%Z, Some 77%Z, Some "Anantapur"%string, Some "IN"%string) =
        (Some lat, lon, name, country) /\ Some tt = Some data /\
      ss_weather_data s' = Some data /\ ss_city_name s' = name) /\
  (err <> None -> ss_weather_data s' = None /\ ss_city_search_done s' = false).
Proof.
  split; [vm_compute; reflexivity|]; split; [vm_compute; reflexivity|].
  apply (proj2 (fetch_and_store_data_outcome
                  (fun _ => (Some 14%Z, Some 77%Z, Some "Anantapur"%string, Some "IN"%string))
                  (fun _ _ => Some tt) "Anantapur" initial_session)).
  vm_compute; reflexivity.
Defined.

Lemma fetch_consistent {Coord Data : Type} gc gw city_input (s : Session Coord Data) :
  (ss_city_search_done s = true <-> ss_weather_data s <> None) ->
  let s' := fst (fetch_and_store_data gc gw city_input s) in
  ss_city_search_done s' = true <-> ss_weather_data s' <> None.
Proof.
  intros H; unfold fetch_and_store_data.
  destruct (String.eqb (py_strip city_input) ""); [exact H|].
  destruct (gc city_input) as [[[[lat|] lon] name] country];
    [destruct (gw (Some lat) lon)|]; cbn; split; congruence.
Qed.

(** X7: in every session, after any sequence of clicks on "Get Weather",
    each with its own answers of [get_coordinates] and [get_weather_data],
    [city_search_done] is set exactly when weather data are stored, so the
    dashboard is shown exactly when [city_search_done] is set. *)
Theorem search_done_iff_data {Coord Data : Type} (clicks : list (Click Coord Data)) :
  let s := run_fetches clicks initial_session in
  (ss_city_search_done s = true <-> ss_weather_data s <> None) /\
  dashboard_shown s = ss_city_search_done s.
Proof.
  cbv zeta.
  assert (Hinv : forall l (s : Session Coord Data),
            (ss_city_search_done s = true <-> ss_weather_data s <> None) ->
            let s' := run_fetches l s in
            ss_city_search_done s' = true <-> ss_weather_data s' <> None).
  { induction l as [|i r IH]; intros s0 H; cbn [run_fetches]; [exact H|].
    apply IH, fetch_consistent, H. }
  pose proof (Hinv clicks initial_session) as Hi; cbv zeta in Hi.
  assert (H0 : ss_city_search_done (@initial_session Coord Data) = true <->
               ss_weather_data (@initial_session Coord Data) <> None)
    by (cbn; split; [discriminate | intros Hc; contradiction Hc; reflexivity]).
  specialize (Hi H0); split; [exact Hi|].
  unfold dashboard_shown.
  destruct (ss_city_search_done _) eqn:Ed, (ss_weather_data _) eqn:Ew; try reflexivity.
  destruct (proj1 Hi eq_refl); reflexivity.
Qed.

(** ** The current-conditions card *)

(** X8: when the current weather has no "weather" key, the card shows the
    icon "01d" and the description "Clear"; it raises exactly when
    "weather" is null, an empty list, or its first element has a null
    description; an element without "icon" or "description" gets the
    defaults "01d" and "Clear". *)
Theorem current_icon_description_defaults (weather : JField (list WeatherObj)) :
  current_icon_description Absent = Some (Some "01d"%string, "Clear"%string) /\
  (current_icon_description weather = None <->
     weather = Null \/ weather = Val [] \/
     exists w rest, weather = Val (w :: rest) /\ w_description w = Null) /\
  (forall w rest, w_icon w = Absent -> w_description w = Absent ->
     current_icon_description (Val (w :: rest)) = Some (Some "01d"%string, "Clear"%string)).
Proof.
  split; [reflexivity|]; split.
  - destruct weather as [| |[|w rest]]; cbn.
    + split; [discriminate|]; intros [H|[H|(w & r & H & _)]]; discriminate H.
    + split; [intros _; left; reflexivity | reflexivity].
    + split; [intros _; right; left; reflexivity | reflexivity].
    + unfold current_icon_description; cbn.
      destruct (w_description w) eqn:Ed; cbn.
      * split; [discriminate|]; intros [H|[H|(w' & r & H & Hd)]]; try discriminate H.
        injection H as <- <-; congruence.
      * split; [intros _; right; right; exists w, rest; auto | reflexivity].
      * split; [discriminate|]; intros [H|[H|(w' & r & H & Hd)]]; try discriminate H.
        injection H as <- <-; congruence.
  - intros w rest Hi Hd; unfold current_icon_description; cbn.
    rewrite Hi, Hd; reflexivity.
Qed.

Lemma current_icon_description_defaults_witness :
  current_icon_description
    (Val [{| w_icon := Absent; w_description := Absent |};
          {| w_icon := Val "10d"%string; w_description := Val "light rain"%string |}]) =
  Some (Some "01d"%string, "Clear"%string).
Proof.
  apply (proj2 (proj2 (current_icon_description_defaults Absent))); reflexivity.
Defined.

(** ** The charts *)

Lemma take_word_no_space s n c :
  String.get n (take_word s) = Some c -> is_space c = false.
Proof.
  revert n; induction s as [|c0 r IH]; intros n; simpl; [discriminate|].
  destruct (is_space c0) eqn:E; [destruct n; discriminate|].
  destruct n as [|n]; simpl; [intros H; injection H as <-; exact E | apply IH].
Qed.

Lemma split_first_word s t :
  split_first s = Some t ->
  t <> EmptyString /\ (forall n c, String.get n t = Some c -> is_space c = false).
Proof.
  unfold split_first; destruct (all_space s) eqn:E.
  - rewrite lstrip_all_space by exact E; discriminate.
  - destruct (lstrip_not_all_space s E) as (c & r & -> & Hc).
    intros H; injection H as <-; split; [rewrite Hc; discriminate|].
    exact (take_word_no_space (String c r)).
Qed.

Lemma hourly_annotations_spec ps :
  (hourly_annotations ps = None <-> exists p, In p ps /\ all_space (condition p) = true) /\
  (hourly_annotations ps = Some None <-> ps = []) /\
  (forall texts, hourly_annotations ps = Some (Some texts) ->
     List.length texts = List.length ps /\
     forall t, In t texts -> t <> EmptyString /\
       (forall n c, String.get n t = Some c -> is_space c = false)).
Proof.
  destruct ps as [|p0 r].
  - cbn; split; [split; [discriminate | intros (p & [] & _)]|].
    split; [split; reflexivity | intros texts Hc; discriminate Hc].
  - unfold hourly_annotations.
    destruct (mapM (fun p => split_first (condition p)) (p0 :: r)) as [texts|] eqn:Em;
      cbn [bind].
    + split; [split; [discriminate|]|].
      { intros (p & Hp & Hs); apply split_first_None in Hs.
        assert (Hn : mapM (fun p => split_first (condition p)) (p0 :: r) = None)
          by (apply mapM_None; eauto).
        congruence. }
      split; [split; intros Hc; discriminate Hc|].
      intros texts' Hc; injection Hc as <-.
      split; [exact (mapM_length _ _ _ Em)|].
      intros t Ht; destruct (mapM_In _ _ _ _ Em Ht) as (p & _ & Hp).
      exact (split_first_word _ _ Hp).
    + split; [split; [intros _|intros _; reflexivity]|].
      { apply mapM_None in Em as (p & Hp & Hs); apply split_first_None in Hs; eauto. }
      split; [split; intros Hc; discriminate Hc | intros texts Hc; discriminate Hc].
Qed.

Lemma chart_blank_window (f : ForecastItem -> option HourlyPoint) win ps :
  (forall x p, f x = Some p -> condition p = py_title (item_description x)) ->
  mapM f win = Some ps ->
  ((exists p, In p ps /\ all_space (condition p) = true) <->
   exists item, In item win /\ all_space (item_description item) = true).
Proof.
  intros Hf Hm; split.
  - intros (p & Hp & Hs); destruct (mapM_In _ _ _ _ Hm Hp) as (x & Hx & Hfx).
    exists x; split; [exact Hx|]; rewrite (Hf _ _ Hfx), all_space_title in Hs; exact Hs.
  - intros (x & Hx & Hs); destruct (mapM_In_rev _ _ _ _ Hm Hx) as (p & Hp & Hfx).
    exists p; split; [exact Hp|]; rewrite (Hf _ _ Hfx), all_space_title; exact Hs.
Qed.

(** X9: the hourly chart (Step 5, [if hours:]) raises an [IndexError]
    exactly when an item of the displayed window has a description that is
    empty or only whitespace ([conditions[i].split()[0]]); it draws nothing
    for an empty window; otherwise it writes one annotation per point, each
    a non-empty word without whitespace.  This holds for update.py's slider
    window and App.py's (and new.py's) 8 items. *)
Theorem hourly_chart_annotations (l : list ForecastItem) (o w : Z) (ps : list HourlyPoint) :
  (Update.hourly l o w = Some ps ->
     (hourly_annotations ps = None <->
        exists item, In item (py_prefix l (w / 3)) /\ all_space (item_description item) = true) /\
     (hourly_annotations ps = Some None <-> ps = []) /\
     (forall texts, hourly_annotations ps = Some (Some texts) ->
        List.length texts = List.length ps /\
        forall t, In t texts -> t <> EmptyString /\
          (forall n c, String.get n t = Some c -> is_space c = false))) /\
  (App.hourly l o = Some ps ->
     (hourly_annotations ps = None <->
        exists item, In item (py_prefix l 8) /\ all_space (item_description item) = true) /\
     (hourly_annotations ps = Some None <-> ps = []) /\
     (forall texts, hourly_annotations ps = Some (Some texts) ->
        List.length texts = List.length ps /\
        forall t, In t texts -> t <> EmptyString /\
          (forall n c, String.get n t = Some c -> is_space c = false))).
Proof.
  destruct (hourly_annotations_spec ps) as (H1 & H2 & H3).
  split; intros H; (split; [|split; [exact H2 | exact H3]]); rewrite H1.
  - apply (chart_blank_window (Update.hourly_point o)); [|exact H].
    intros x p Hp; apply (hourly_point_core_U _ _ _ Hp).
  - apply (chart_blank_window (App.hourly_point o)); [|exact H].
    intros x p Hp; apply (hourly_point_core_A _ _ _ Hp).
Qed.

Lemma hourly_chart_annotations_witness :
  exists ps,
    Update.hourly [{| item_dt := 0; item_temp := 20; item_icon := "01d"; item_description := " " |}]
      0 24 = Some ps /\
    (hourly_annotations ps = None <->
       exists item, In item (py_prefix [{| item_dt := 0; item_temp := 20; item_icon := "01d";
                                           item_description := " " |}] (24 / 3)) /\
         all_space (item_description item) = true).
Proof.
  exists (match Update.hourly [{| item_dt := 0; item_temp := 20; item_icon := "01d";
                                  item_description := " " |}] 0 24 with
          | Some ps => ps | None => [] end).
  split; [vm_compute; reflexivity|].
  apply (fun H => proj1 (proj1 (hourly_chart_annotations _ 0 24 _) H)).
  vm_compute; reflexivity.
Defined.

(** ** One iteration of Step 6 in App.py *)

Lemma New_daily_App srv l : New.daily srv l = App.daily srv l.
Proof.
  unfold New.daily, App.daily; rewrite New_aggregate_App; reflexivity.
Qed.

Lemma App_step_spec srv d x d' :
  App.step srv d x = Some d' ->
  (forall k, k <> day_key srv x -> lookup k d' = lookup k d) /\
  map fst d' = map fst d ++
    match lookup (day_key srv x) d with Some _ => [] | None => [day_key srv x] end /\
  exists e', lookup (day_key srv x) d' = Some e' /\
    match lookup (day_key srv x) d with
    | Some e => App.temps e' = App.temps e ++ [item_temp x] /\ App.icon e' = App.icon e
    | None => App.temps e' = [item_temp x] /\ App.icon e' = item_icon x
    end.
Proof.
  rewrite App_step_eq; destruct (naive_in_range srv (item_dt x)); [|discriminate].
  intros H; injection H as <-.
  set (k := day_key srv x).
  split; [|split].
  - intros k' Hk'; rewrite lookup_modify.
    destruct (String.eqb_spec k' k); [contradiction|].
    destruct (lookup k d) eqn:E; [reflexivity|].
    destruct (lookup k' d) eqn:E'.
    + apply lookup_app_Some; exact E'.
    + rewrite lookup_app_None by exact E'; simpl.
      destruct (String.eqb_spec k' k); [contradiction | reflexivity].
  - rewrite map_fst_modify; destruct (lookup k d); [rewrite app_nil_r; reflexivity|].
    rewrite map_app; reflexivity.
  - rewrite lookup_modify, String.eqb_refl.
    destruct (lookup k d) as [e|] eqn:E.
    + rewrite E; eexists; split; [reflexivity|]; cbn; auto.
    + rewrite lookup_app_None by exact E; cbn [lookup fst snd].
      rewrite String.eqb_refl; eexists; split; [reflexivity|]; cbn; auto.
Qed.

Lemma filter_none {A} (f : A -> bool) l : (forall x, In x l -> f x = false) -> filter f l = [].
Proof.
  induction l as [|a r IH]; simpl; intros H; [reflexivity|].
  rewrite (H a (or_introl eq_refl)); apply IH; auto.
Qed.

Lemma temps_inv_step {V} (T : V -> list Z) srv p (d d' : list (string * V)) x :
  (forall k, In k (map fst d) <-> exists s, In s p /\ day_key srv s = k) ->
  (forall k, k <> day_key srv x -> lookup k d' = lookup k d) ->
  (exists e', lookup (day_key srv x) d' = Some e' /\
     match lookup (day_key srv x) d with
     | Some e => T e' = T e ++ [item_temp x]
     | None => T e' = [item_temp x]
     end) ->
  temps_inv T srv p d -> temps_inv T srv (p ++ [x]) d'.
Proof.
  intros Hkeys Hother (e' & He' & Hcase) Ht k e Hl.
  rewrite filter_app, map_app; cbn [filter].
  destruct (String.eqb_spec k (day_key srv x)) as [->|Hne].
  - rewrite String.eqb_refl; rewrite He' in Hl; injection Hl as <-.
    destruct (lookup (day_key srv x) d) as [e0|] eqn:E.
    + rewrite Hcase, (Ht _ _ E); reflexivity.
    + rewrite Hcase, filter_none; [reflexivity|].
      intros s Hs; destruct (String.eqb_spec (day_key srv s) (day_key srv x)) as [Heq|]; [|reflexivity].
      exfalso; apply (lookup_None_notin _ _ E), Hkeys; eauto.
  - rewrite Hother in Hl by exact Hne.
    destruct (String.eqb_spec (day_key srv x) k); [congruence|].
    rewrite app_nil_r; exact (Ht _ _ Hl).
Qed.

Lemma first_icon_inv_step srv p d x d' :
  first_icon_inv srv p d -> App.step srv d x = Some d' -> first_icon_inv srv (p ++ [x]) d'.
Proof.
  intros (Hnd & Hkeys & Hic) Hs.
  destruct (App_step_spec _ _ _ _ Hs) as (Hother & Hfst & e' & He' & Hcase).
  split; [|split].
  - rewrite Hfst; destruct (lookup (day_key srv x) d) eqn:E; [rewrite app_nil_r; exact Hnd|].
    apply NoDup_snoc; [exact Hnd | exact (lookup_None_notin _ _ E)].
  - intros k; rewrite Hfst, in_app_iff; split.
    + intros [Hk|Hk].
      * apply Hkeys in Hk as (s & Hs' & Hks); exists s; rewrite in_app_iff; auto.
      * destruct (lookup (day_key srv x) d); [contradiction|].
        destruct Hk as [<-|[]]; exists x; rewrite in_app_iff; simpl; auto.
    + intros (s & Hs' & Hks); rewrite in_app_iff in Hs'.
      destruct Hs' as [Hs'|[<-|[]]]; [left; apply Hkeys; eauto|].
      destruct (lookup (day_key srv x) d) eqn:E; [left; rewrite <- Hks; exact (lookup_In_keys _ _ _ E)|].
      right; left; exact Hks.
  - intros k e Hl.
    destruct (String.eqb_spec k (day_key srv x)) as [->|Hne].
    + rewrite He' in Hl; injection Hl as <-.
      destruct (lookup (day_key srv x) d) as [e0|] eqn:E.
      * destruct (Hic _ _ E) as (pre & s & post & Hp & Hks & Hi & Hpre).
        exists pre, s, (post ++ [x]); split; [rewrite Hp, <- app_assoc; reflexivity|].
        split; [exact Hks|]; split; [rewrite (proj2 Hcase); exact Hi | exact Hpre].
      * exists p, x, []; split; [reflexivity|]; split; [reflexivity|].
        split; [exact (proj2 Hcase)|].
        intros s' Hs' Hks'; apply (lookup_None_notin _ _ E), Hkeys; eauto.
    + rewrite Hother in Hl by exact Hne.
      destruct (Hic _ _ Hl) as (pre & s & post & Hp & Hks & Hi & Hpre).
      exists pre, s, (post ++ [x]); split; [rewrite Hp, <- app_assoc; reflexivity|].
      auto.
Qed.

Lemma App_aggregate_inv srv l : forall p d d',
  App.aggregate srv d l = Some d' ->
  first_icon_inv srv p d -> temps_inv App.temps srv p d ->
  first_icon_inv srv (p ++ l) d' /\ temps_inv App.temps srv (p ++ l) d'.
Proof.
  induction l as [|x r IH]; simpl; intros p d d' H Hi Ht.
  - injection H as <-; rewrite app_nil_r; auto.
  - apply bind_Some in H as [d1 [Hs Ha]].
    assert (Ht1 : temps_inv App.temps srv (p ++ [x]) d1).
    { destruct (App_step_spec _ _ _ _ Hs) as (Hother & _ & e' & He' & Hcase).
      apply (temps_inv_step _ _ _ d d1 x (proj1 (proj2 Hi)) Hother); [|exact Ht].
      exists e'; split; [exact He'|].
      destruct (lookup (day_key srv x) d); apply Hcase. }
    destruct (IH (p ++ [x]) d1 d' Ha (first_icon_inv_step _ _ _ _ _ Hi Hs) Ht1) as [H1 H2].
    rewrite <- app_assoc in H1, H2; simpl in H1, H2; auto.
Qed.

Lemma Update_aggregate_temps srv l : forall p d d',
  Update.aggregate srv d l = Some d' -> keys_inv srv p d -> temps_inv Update.temps srv p d ->
  temps_inv Update.temps srv (p ++ l) d'.
Proof.
  induction l as [|x r IH]; simpl; intros p d d' H Hk Ht.
  - injection H as <-; rewrite app_nil_r; auto.
  - apply bind_Some in H as [d1 [Hs Ha]].
    assert (Ht1 : temps_inv Update.temps srv (p ++ [x]) d1).
    { destruct (Update_step_spec _ _ _ _ Hs) as (_ & Hother & _ & e' & He' & Hcase).
      apply (temps_inv_step _ _ _ d d1 x (proj1 (proj2 Hk)) Hother); [|exact Ht].
      exists e'; split; [exact He'|].
      destruct (lookup (day_key srv x) d); apply Hcase. }
    pose proof (IH (p ++ [x]) d1 d' Ha (keys_inv_step _ _ _ _ _ Hk Hs) Ht1) as H1.
    rewrite <- app_assoc in H1; exact H1.
Qed.

(** Each summary of the three variants: the maximum and minimum of the
    temperatures of the items of its day, and (App.py, new.py) its icon. *)
Lemma App_daily_entry srv l ds dsum :
  App.daily srv l = Some ds -> In dsum ds ->
  exists e, np_max (App.temps e) = Some (ds_max dsum) /\ np_min (App.temps e) = Some (ds_min dsum) /\
    App.temps e = map item_temp (filter (fun s => String.eqb (day_key srv s) (ds_day dsum)) l) /\
    exists pre s post, l = pre ++ s :: post /\ day_key srv s = ds_day dsum /\
      ds_icon dsum = item_icon s /\ (forall s', In s' pre -> day_key srv s' <> ds_day dsum).
Proof.
  unfold App.daily; intros H Hin; apply bind_Some in H as [d [Ha Hm]].
  assert (H0 : first_icon_inv srv [] [] /\ temps_inv App.temps srv [] []).
  { split; [split; [constructor|]; split; [intros k; split; [intros []|intros (s & [] & _)]|]|];
      intros k e Hl; discriminate Hl. }
  destruct (App_aggregate_inv srv l [] [] d Ha (proj1 H0) (proj2 H0)) as [(Hnd & _ & Hic) Ht].
  destruct (mapM_In _ _ _ _ Hm Hin) as [[k e] [Hke He]].
  rewrite py_prefix_nonneg in Hke by lia; apply In_firstn in Hke.
  apply In_lookup in Hke; [|exact Hnd].
  apply App_emit_Some in He as (Hday & Hic' & Hmx & Hmn).
  exists e; split; [exact Hmx|]; split; [exact Hmn|]; rewrite Hday; split; [exact (Ht _ _ Hke)|].
  destruct (Hic _ _ Hke) as (pre & s & post & Hp & Hks & Hi & Hpre).
  exists pre, s, post; rewrite Hic'; auto.
Qed.

Lemma Update_daily_temps srv l ds dsum :
  Update.daily srv l = Some ds -> In dsum ds ->
  exists e, np_max (Update.temps e) = Some (ds_max dsum) /\
    np_min (Update.temps e) = Some (ds_min dsum) /\
    Update.temps e = map item_temp (filter (fun s => String.eqb (day_key srv s) (ds_day dsum)) l).
Proof.
  unfold Update.daily; intros H Hin; apply bind_Some in H as [d [Ha Hm]].
  destruct (inv_nil srv) as [Hi0 Hk0].
  destruct (Update_aggregate_inv srv l [] [] d Ha Hi0 Hk0) as [_ Hk].
  assert (Ht0 : temps_inv Update.temps srv [] []) by (intros k e Hl; discriminate Hl).
  pose proof (Update_aggregate_temps srv l [] [] d Ha Hk0 Ht0) as Ht.
  destruct (mapM_In _ _ _ _ Hm Hin) as [[k e] [Hke He]].
  rewrite py_prefix_nonneg in Hke by lia; apply In_firstn in Hke.
  apply In_lookup in Hke; [|exact (proj1 Hk)].
  apply Update_emit_Some in He as (Hday & _ & _ & Hmx & Hmn).
  exists e; split; [exact Hmx|]; split; [exact Hmn|]; rewrite Hday; exact (Ht _ _ Hke).
Qed.

Lemma daily_extrema_any srv l ds dsum :
  (Update.daily srv l = Some ds \/ App.daily srv l = Some ds \/ New.daily srv l = Some ds) ->
  In dsum ds ->
  let ts := map item_temp (filter (fun s => String.eqb (day_key srv s) (ds_day dsum)) l) in
  In (ds_max dsum) ts /\ In (ds_min dsum) ts /\
  (forall t, In t ts -> ds_min dsum <= t /\ t <= ds_max dsum).
Proof.
  intros H Hin; cbv zeta.
  assert (Hx : exists T, np_max T = Some (ds_max dsum) /\ np_min T = Some (ds_min dsum) /\
            T = map item_temp (filter (fun s => String.eqb (day_key srv s) (ds_day dsum)) l)).
  { destruct H as [H|[H|H]].
    - destruct (Update_daily_temps _ _ _ _ H Hin) as (e & H1 & H2 & H3); eauto.
    - destruct (App_daily_entry _ _ _ _ H Hin) as (e & H1 & H2 & H3 & _); eauto.
    - assert (HA : App.daily srv l = Some ds).
      { rewrite <- H; symmetry; apply New_daily_App. }
      destruct (App_daily_entry _ _ _ _ HA Hin) as (e & H1 & H2 & H3 & _); eauto. }
  destruct Hx as (T & H1 & H2 & <-).
  apply np_max_spec in H1 as [H1 H1']; apply np_min_spec in H2 as [H2 H2'].
  split; [exact H1|]; split; [exact H2|]; intros t Ht; split; auto.
Qed.

(** X11: in App.py and new.py each daily summary shows the icon of the
    first item of its day (in list order): no earlier item has that day. *)
Theorem daily_icon_first_of_day (srv : Z) (l : list ForecastItem) (ds : list DailySummary)
  (d : DailySummary) :
  (App.daily srv l = Some ds \/ New.daily srv l = Some ds) -> In d ds ->
  exists pre s post, l = pre ++ s :: post /\ day_key srv s = ds_day d /\
    ds_icon d = item_icon s /\ (forall s', In s' pre -> day_key srv s' <> ds_day d).
Proof.
  intros H Hin.
  assert (HA : App.daily srv l = Some ds).
  { destruct H as [H|H]; [exact H|].
    rewrite <- H; symmetry; apply New_daily_App. }
  destruct (App_daily_entry _ _ _ _ HA Hin) as (e & _ & _ & _ & Hfirst); exact Hfirst.
Qed.

Lemma daily_icon_first_of_day_witness :
  exists ds, App.daily 0 [mk 0 20 "01n"; mk 43200 25 "01d"] = Some ds /\
    forall d, In d ds ->
    exists pre s post, [mk 0 20 "01n"; mk 43200 25 "01d"] = pre ++ s :: post /\
      day_key 0 s = ds_day d /\ ds_icon d = item_icon s /\
      (forall s', In s' pre -> day_key 0 s' <> ds_day d).
Proof.
  exists (match App.daily 0 [mk 0 20 "01n"; mk 43200 25 "01d"] with Some ds => ds | None => [] end).
  split; [vm_compute; reflexivity|].
  intros d Hd; refine (daily_icon_first_of_day 0 _ _ d _ Hd); left; vm_compute; reflexivity.
Defined.

(** X12: in all three variants each daily summary's maximum and minimum
    are temperatures of items of its day, and every item of that day (in
    the whole list, not only the first five days) has a temperature
    between them. *)
Theorem daily_extrema_of_day (srv : Z) (l : list ForecastItem) (ds : list DailySummary)
  (d : DailySummary) :
  (Update.daily srv l = Some ds \/ App.daily srv l = Some ds \/ New.daily srv l = Some ds) ->
  In d ds ->
  In (ds_max d) (map item_temp (filter (fun s => String.eqb (day_key srv s) (ds_day d)) l)) /\
  In (ds_min d) (map item_temp (filter (fun s => String.eqb (day_key srv s) (ds_day d)) l)) /\
  (forall s, In s l -> day_key srv s = ds_day d -> ds_min d <= item_temp s <= ds_max d).
Proof.
  intros H Hin; destruct (daily_extrema_any _ _ _ _ H Hin) as (H1 & H2 & H3).
  split; [exact H1|]; split; [exact H2|].
  intros s Hs Hk; apply H3, in_map, filter_In; split; [exact Hs|].
  apply String.eqb_eq; exact Hk.
Qed.

Lemma daily_extrema_of_day_witness :
  exists ds, Update.daily 0 day8 = Some ds /\
    forall d, In d ds ->
    In (ds_max d) (map item_temp (filter (fun s => String.eqb (day_key 0 s) (ds_day d)) day8)) /\
    In (ds_min d) (map item_temp (filter (fun s => String.eqb (day_key 0 s) (ds_day d)) day8)) /\
    (forall s, In s day8 -> day_key 0 s = ds_day d -> ds_min d <= item_temp s <= ds_max d).
Proof.
  exists (match Update.daily 0 day8 with Some ds => ds | None => [] end).
  split; [vm_compute; reflexivity|].
  intros d Hd.
  apply (daily_extrema_of_day 0 day8
           (match Update.daily 0 day8 with Some ds => ds | None => [] end) d);
    [left; vm_compute; reflexivity | exact Hd].
Defined.
